(** * The soil-to-recommendation calculator of the fertilizer advisor

    A shallow embedding of [generateRecommendations] and [handleSubmit]
    (src/app/layout.tsx) together with the part of the JavaScript number
    semantics the calculator relies on.

    JavaScript numbers are IEEE 754 binary64 values; they are modelled by
    Rocq's primitive floats, whose operations are the same binary64
    operations (round to nearest, ties to even).  A decimal literal of the
    source such as [6.8] denotes the nearest binary64 value, both in
    JavaScript and here. *)

From Stdlib Require Import Floats ZArith String Ascii List Bool Lia.
From Stdlib Require Import DecimalString.
Import ListNotations.

Set Warnings "-inexact-float".

Open Scope string_scope.
Open Scope float_scope.

(** ** JavaScript numbers *)

Module JS.

Definition number : Set := float.

(** [ToBoolean] on a number: [+0], [-0] and [NaN] are falsy. *)
Definition ToBoolean (x : number) : bool :=
  negb (is_nan x || is_zero x).

(** [a || d] where [a] is an optional numeric property ([None] is
    [undefined], which is falsy) and [d] a number. *)
Definition or_default (a : option number) (d : number) : number :=
  match a with
  | Some x => if ToBoolean x then x else d
  | None => d
  end.

(** The relational operators are those of binary64, false whenever an
    operand is [NaN]: [a < b] is [a <? b], [a > b] is [b <? a], [a <= b] is
    [a <=? b] and [a >= b] is [b <=? a]. *)

Definition isNaN (x : number) : bool := is_nan x.

Definition is_neg_zero (x : number) : bool :=
  match classify x with NZero => true | _ => false end.

Definition is_pos_zero (x : number) : bool :=
  match classify x with PZero => true | _ => false end.

Definition Math_abs (x : number) : number := abs x.

(** [Math.min(a, b)]: [NaN] if an argument is [NaN]; [-0] is below [+0]. *)
Definition Math_min (a b : number) : number :=
  if isNaN a then nan
  else if isNaN b then nan
  else
    let lowest := a in
    if is_neg_zero b && is_pos_zero lowest then b
    else if b <? lowest then b
    else lowest.

(** An integer of magnitude at most [2^53] as a number (exact). *)
Definition of_Z (n : Z) : number :=
  if (n <? 0)%Z then - of_uint63 (Uint63.of_Z (- n))
  else of_uint63 (Uint63.of_Z n).

(** [Math.round(x)]: [x] itself when it is not finite or already integral,
    otherwise the integer nearest to [x], the larger one on a tie, that is
    the exact [floor (x + 1/2)]; a zero result keeps the sign of [x]. *)
Definition Math_round (x : number) : number :=
  match Prim2SF x with
  | S754_finite s m e =>
      if (0 <=? e)%Z then x
      else
        let d := (2 ^ (- e))%Z in
        let v := if s then Z.neg m else Z.pos m in
        let n := ((2 * v + d) / (2 * d))%Z in
        if (n =? 0)%Z then (if s then (-0) else 0) else of_Z n
  | _ => x
  end.

(** *** Number to string

    [Number::toString] in radix 10: the shortest decimal [s * 10^(n-k)]
    (with [k] digits in [s]) that reads back as the number, the closest such
    when there are several, laid out as the language prescribes.  All the
    arithmetic is exact, over [Z]. *)

(** The reals that round to [m * 2^e]: between [lo / den] and [hi / den]
    around [val / den], end points included when [m] is even. *)
Record rounding_interval : Set := {
  ri_val : Z;
  ri_lo : Z;
  ri_hi : Z;
  ri_den : Z;
  ri_closed : bool
}.

Definition interval_of (m : positive) (e : Z) : rounding_interval :=
  (* below a power of two the neighbour is half as far *)
  let boundary := ((Z.pos m =? 2 ^ 52) && (-1074 <? e))%Z in
  let v := (4 * Z.pos m)%Z in
  let l := (v - (if boundary then 1 else 2))%Z in
  let h := (v + 2)%Z in
  let sc := (e - 2)%Z in
  if (0 <=? sc)%Z then
    {| ri_val := v * 2 ^ sc; ri_lo := l * 2 ^ sc; ri_hi := h * 2 ^ sc;
       ri_den := 1; ri_closed := Z.even (Z.pos m) |}
  else
    {| ri_val := v; ri_lo := l; ri_hi := h;
       ri_den := 2 ^ (- sc); ri_closed := Z.even (Z.pos m) |}.

(** Is [s * 10^j] inside the interval? *)
Definition inside (iv : rounding_interval) (j s : Z) : bool :=
  let a := (if 0 <=? j then s * 10 ^ j * ri_den iv else s * ri_den iv)%Z in
  let k := (if 0 <=? j then 1 else 10 ^ (- j))%Z in
  if ri_closed iv
  then ((ri_lo iv * k <=? a) && (a <=? ri_hi iv * k))%Z
  else ((ri_lo iv * k <? a) && (a <? ri_hi iv * k))%Z.

(** The multiple of [10^j] inside the interval that is closest to the
    value, if there is one. *)
Definition pick (iv : rounding_interval) (j : Z) : option Z :=
  let num := (if 0 <=? j then ri_val iv else ri_val iv * 10 ^ (- j))%Z in
  let den := (if 0 <=? j then ri_den iv * 10 ^ j else ri_den iv)%Z in
  let q := (num / den)%Z in
  let r := (num mod den)%Z in
  let below := inside iv j q in
  let above := inside iv j (q + 1) in
  let prefer_below := ((2 * r <? den) || ((2 * r =? den) && Z.even q))%Z in
  if below && above then Some (if prefer_below then q else (q + 1)%Z)
  else if below then Some q
  else if above then Some (q + 1)%Z
  else None.

Fixpoint shortest (fuel : nat) (iv : rounding_interval) (j : Z) : Z * Z :=
  match fuel with
  | O => (0%Z, j)
  | S fuel' =>
      match pick iv j with
      | Some s => (s, j)
      | None => shortest fuel' iv (j - 1)
      end
  end.

Definition decimal (n : Z) : string :=
  NilZero.string_of_uint (N.to_uint (Z.to_N n)).

Fixpoint zeros (n : nat) : string :=
  match n with
  | O => EmptyString
  | S n' => String "0" (zeros n')
  end.

(** The layout of the digits [ds] (there are [k] of them) for the value
    [0.ds * 10^n]. *)
Definition layout (ds : string) (k n : Z) : string :=
  if ((k <=? n) && (n <=? 21))%Z then
    ds ++ zeros (Z.to_nat (n - k))
  else if ((0 <? n) && (n <=? 21))%Z then
    substring 0 (Z.to_nat n) ds ++ "." ++ substring (Z.to_nat n) (Z.to_nat (k - n)) ds
  else if ((-6 <? n) && (n <=? 0))%Z then
    "0." ++ zeros (Z.to_nat (- n)) ++ ds
  else
    let e := (n - 1)%Z in
    let c := if (0 <=? e)%Z then "+" else "-" in
    if (k =? 1)%Z then ds ++ "e" ++ c ++ decimal (Z.abs e)
    else substring 0 1 ds ++ "." ++ substring 1 (Z.to_nat (k - 1)) ds
         ++ "e" ++ c ++ decimal (Z.abs e).

Definition Number_toString (x : number) : string :=
  match Prim2SF x with
  | S754_nan => "NaN"
  | S754_zero _ => "0"
  | S754_infinity s => if s then "-Infinity" else "Infinity"
  | S754_finite s m e =>
      let iv := interval_of m e in
      let j0 := (Z.log2 (ri_hi iv / ri_den iv) + 1)%Z in
      let fuel := Z.to_nat (j0 - Z.min (e - 2) 0 + 1) in
      let '(d, j) := shortest fuel iv j0 in
      let ds := decimal d in
      let k := Z.of_nat (String.length ds) in
      (if s then "-" else "") ++ layout ds k (j + k)
  end.

End JS.

Import JS.

(** ** The data model (src/types/index.ts, src/app/layout.tsx) *)

Record SoilData : Set := {
  pH : option number;
  nitrogen : option number;
  phosphorus : option number;
  potassium : option number;
  location : option string
}.

(** The uploaded image of the form is not part of the calculation and is
    left out. *)
Record FormData : Set := {
  soilData : SoilData;
  farmSize : option number;
  crops : option string
}.

Record CropRecommendation : Set := {
  name : string;
  suitability : number;
  expectedYield : string
}.

Record FertilizerRecommendation : Set := {
  npkRatio : string;
  quantity : string;
  estimatedCost : string
}.

Record SoilHealth : Set := {
  status : string;
  improvements : list string
}.

Record AnalysisResults : Set := {
  recommendedCrops : list CropRecommendation;
  fertilizerRecommendation : FertilizerRecommendation;
  soilHealth : SoilHealth
}.

(** The empty record [{}] of the initial form state. *)
Definition emptySoilData : SoilData :=
  {| pH := None; nitrogen := None; phosphorus := None; potassium := None;
     location := None |}.

(** Object spread with one property replaced. *)
Definition with_pH (s : SoilData) (v : option number) : SoilData :=
  {| pH := v; nitrogen := nitrogen s; phosphorus := phosphorus s;
     potassium := potassium s; location := location s |}.

Definition with_nitrogen (s : SoilData) (v : option number) : SoilData :=
  {| pH := pH s; nitrogen := v; phosphorus := phosphorus s;
     potassium := potassium s; location := location s |}.

Definition with_phosphorus (s : SoilData) (v : option number) : SoilData :=
  {| pH := pH s; nitrogen := nitrogen s; phosphorus := v;
     potassium := potassium s; location := location s |}.

Definition with_potassium (s : SoilData) (v : option number) : SoilData :=
  {| pH := pH s; nitrogen := nitrogen s; phosphorus := phosphorus s;
     potassium := v; location := location s |}.

(** ** The calculator *)

(** [Array.prototype.push] and [slice(0, n)] on an immutable list. *)
Definition push {A : Type} (l : list A) (x : A) : list A := l ++ [x].
Definition slice0 {A : Type} (n : nat) (l : list A) : list A := firstn n l.

(** The three axes of the ratio: two unconditional tests in sequence, the
    second overwriting what the first assigned. *)
Definition nRatio_of (nitrogen : number) : number :=
  let nRatio := 10 in
  let nRatio := if nitrogen <? 0.8 then 15 else nRatio in
  let nRatio := if nitrogen <? 0.5 then 20 else nRatio in
  nRatio.

Definition pRatio_of (phosphorus : number) : number :=
  let pRatio := 10 in
  let pRatio := if phosphorus <? 0.15 then 15 else pRatio in
  let pRatio := if phosphorus <? 0.1 then 20 else pRatio in
  pRatio.

Definition kRatio_of (potassium : number) : number :=
  let kRatio := 10 in
  let kRatio := if potassium <? 0.9 then 15 else kRatio in
  let kRatio := if potassium <? 0.7 then 20 else kRatio in
  kRatio.

Definition generateRecommendations (soilData : SoilData) : AnalysisResults :=
  let pH := or_default (pH soilData) 6.5 in
  let nitrogen := or_default (nitrogen soilData) 0.8 in
  let phosphorus := or_default (phosphorus soilData) 0.15 in
  let potassium := or_default (potassium soilData) 0.9 in

  (* soil health status *)
  let soilStatus := "Good" in
  let improvements : list string := [] in
  let branch :=
    if pH <? 6.0 then
      ("Acidic", push improvements "Apply lime to increase pH")
    else if 7.5 <? pH then
      ("Alkaline", push improvements "Apply sulfur to decrease pH")
    else (soilStatus, improvements) in
  let soilStatus := fst branch in
  let improvements := snd branch in
  let improvements :=
    if nitrogen <? 0.5
    then push improvements "Increase nitrogen with organic compost"
    else improvements in
  let improvements :=
    if phosphorus <? 0.1
    then push improvements "Add phosphate fertilizer"
    else improvements in
  let improvements :=
    if potassium <? 0.8
    then push improvements "Apply potassium-rich fertilizer"
    else improvements in
  let improvements :=
    if (List.length improvements =? 0)%nat
    then push (push improvements "Maintain current nutrient balance")
              "Regular soil testing recommended"
    else improvements in

  (* crop recommendations *)
  let recommendedCrops : list CropRecommendation := [] in
  let recommendedCrops :=
    if (6.0 <=? pH) && (pH <=? 7.0) && (0.6 <=? nitrogen) then
      push recommendedCrops
        {| name := "Tomato";
           suitability :=
             Math_min 95 (60 + (nitrogen * 30) + (7 - Math_abs (pH - 6.5)) * 5);
           expectedYield :=
             Number_toString (Math_round (20 + nitrogen * 10)) ++ " tons/hectare" |}
    else recommendedCrops in
  let recommendedCrops :=
    push recommendedCrops
      {| name := "Lettuce";
         suitability :=
           Math_min 95 (70 + (phosphorus * 100) + (8 - Math_abs (pH - 6.8)) * 3);
         expectedYield :=
           Number_toString (Math_round (12 + phosphorus * 20)) ++ " tons/hectare" |} in
  let recommendedCrops :=
    if 0.7 <=? potassium then
      push recommendedCrops
        {| name := "Pepper";
           suitability :=
             Math_min 95 (65 + (potassium * 25) + (7.5 - Math_abs (pH - 6.8)) * 4);
           expectedYield :=
             Number_toString (Math_round (15 + potassium * 8)) ++ " tons/hectare" |}
    else recommendedCrops in
  let recommendedCrops :=
    if (List.length recommendedCrops =? 0)%nat then
      push recommendedCrops
        {| name := "Hardy Vegetables";
           suitability := 70;
           expectedYield := "10-15 tons/hectare" |}
    else recommendedCrops in

  (* NPK ratio *)
  let nRatio := nRatio_of nitrogen in
  let pRatio := pRatio_of phosphorus in
  let kRatio := kRatio_of potassium in
  let fertilizerCost := Math_round ((nRatio + pRatio + kRatio) * 2.5 + 100) in

  {| recommendedCrops := slice0 3 recommendedCrops;
     fertilizerRecommendation :=
       {| npkRatio :=
            Number_toString nRatio ++ "-" ++ Number_toString pRatio
              ++ "-" ++ Number_toString kRatio;
          quantity :=
            Number_toString (Math_round (150 + (nRatio + pRatio + kRatio) * 3))
              ++ " kg/hectare";
          estimatedCost := "$" ++ Number_toString fertilizerCost |};
     soilHealth := {| status := soilStatus; improvements := improvements |} |}.

(** ** The call site *)

(** How an awaited call completes. *)
Inductive completion (A : Type) : Type :=
| Fulfilled (v : A)
| Rejected (reason : string).

Arguments Fulfilled {A} v.
Arguments Rejected {A} reason.

(** The [async] wrapper: the body has no [throw] and no operation that
    raises, so the promise is always fulfilled. *)
Definition generateRecommendations_async (soilData : SoilData)
  : completion AnalysisResults :=
  Fulfilled (generateRecommendations soilData).

Definition fallbackResults : AnalysisResults :=
  {| recommendedCrops :=
       [ {| name := "Mixed Vegetables";
            suitability := 75;
            expectedYield := "15-20 tons/hectare" |} ];
     fertilizerRecommendation :=
       {| npkRatio := "10-10-10";
          quantity := "200 kg/hectare";
          estimatedCost := "$150" |};
     soilHealth :=
       {| status := "Needs Analysis";
          improvements := ["Get detailed soil test"; "Monitor nutrient levels"] |} |}.

(** [handleSubmit]: the results the page stores, the [catch] branch
    substituting the fallback. *)
Definition handleSubmit (formData : FormData) : AnalysisResults :=
  match generateRecommendations_async (soilData formData) with
  | Fulfilled recommendations => recommendations
  | Rejected _ => fallbackResults
  end.

(** ** The image utilities (src/lib/imageUtils.ts) *)

Definition with_location (s : SoilData) (v : option string) : SoilData :=
  {| pH := pH s; nitrogen := nitrogen s; phosphorus := phosphorus s;
     potassium := potassium s; location := v |}.

(** [!x] on an optional number and on an optional string. *)
Definition falsy_number (v : option number) : bool :=
  match v with
  | Some x => negb (ToBoolean x)
  | None => true
  end.

Definition truthy_string (v : option string) : bool :=
  match v with
  | Some t => negb (String.eqb t "")
  | None => false
  end.

Definition validateSoilData (soilData : SoilData) : SoilData :=
  let validated := emptySoilData in
  (* pH should be between 0-14 *)
  let validated :=
    match pH soilData with
    | Some v =>
        if (0 <=? v) && (v <=? 14) then with_pH validated (Some v)
        else validated
    | None => validated
    end in
  (* nitrogen should be between 0-10% *)
  let validated :=
    match nitrogen soilData with
    | Some v =>
        if (0 <=? v) && (v <=? 10) then with_nitrogen validated (Some v)
        else validated
    | None => validated
    end in
  (* phosphorus should be between 0-5% *)
  let validated :=
    match phosphorus soilData with
    | Some v =>
        if (0 <=? v) && (v <=? 5) then with_phosphorus validated (Some v)
        else validated
    | None => validated
    end in
  (* potassium should be between 0-8% *)
  let validated :=
    match potassium soilData with
    | Some v =>
        if (0 <=? v) && (v <=? 8) then with_potassium validated (Some v)
        else validated
    | None => validated
    end in
  (* keep location as-is *)
  let validated :=
    if truthy_string (location soilData)
    then with_location validated (location soilData)
    else validated in
  validated.

(** A regular expression literal: its source and its flags. *)
Record RegExp : Set := { source : string; flags : string }.

(** The built-ins the utilities call, as the runtime provides them:
    [String.prototype.toLowerCase], [String.prototype.match] with a regular
    expression that has no [g] flag (the match followed by its groups, or
    [null]), and [parseFloat]. *)
Class Runtime : Type := {
  toLowerCase : string -> string;
  String_match : string -> RegExp -> option (list string);
  parseFloat : string -> number
}.

Section ImageUtils.

Context {runtime : Runtime}.

(** [parseFloat (match[i])]; an index outside the array reads [undefined],
    and [parseFloat (undefined)] is [NaN]. *)
Definition parseFloat_at (m : list string) (i : nat) : number :=
  match nth_error m i with
  | Some t => parseFloat t
  | None => nan
  end.

(** One [for (const pattern of patterns)] loop: the value of the field
    after the loop, [current] being its value before; the assignment of a
    value within [lo, hi] ends the loop. *)
Fixpoint scan_patterns (lo hi : number) (lowerText : string)
    (patterns : list RegExp) (current : option number) : option number :=
  match patterns with
  | [] => current
  | pattern :: rest =>
      match String_match lowerText pattern with
      | Some m =>
          if falsy_number current then
            let value := parseFloat_at m 1 in
            if (lo <=? value) && (value <=? hi) then Some value
            else scan_patterns lo hi lowerText rest current
          else scan_patterns lo hi lowerText rest current
      | None => scan_patterns lo hi lowerText rest current
      end
  end.

Definition pHPatterns : list RegExp :=
  [ {| source := "ph[:\s=]*([0-9]+\.?[0-9]*)"; flags := "i" |};
    {| source := "ph\s*level[:\s=]*([0-9]+\.?[0-9]*)"; flags := "i" |};
    {| source := "acidity[:\s=]*([0-9]+\.?[0-9]*)"; flags := "i" |} ].

Definition nitrogenPatterns : list RegExp :=
  [ {| source := "(?:nitrogen|n)[:\s=]*([0-9]+\.?[0-9]*)\s*%?"; flags := "i" |};
    {| source := "n[:\s]*content[:\s=]*([0-9]+\.?[0-9]*)"; flags := "i" |};
    {| source := "total[:\s]*n[:\s=]*([0-9]+\.?[0-9]*)"; flags := "i" |} ].

Definition phosphorusPatterns : list RegExp :=
  [ {| source := "(?:phosphorus|p)[:\s=]*([0-9]+\.?[0-9]*)\s*%?"; flags := "i" |};
    {| source := "p2o5[:\s=]*([0-9]+\.?[0-9]*)"; flags := "i" |};
    {| source := "available[:\s]*p[:\s=]*([0-9]+\.?[0-9]*)"; flags := "i" |} ].

Definition potassiumPatterns : list RegExp :=
  [ {| source := "(?:potassium|k)[:\s=]*([0-9]+\.?[0-9]*)\s*%?"; flags := "i" |};
    {| source := "k2o[:\s=]*([0-9]+\.?[0-9]*)"; flags := "i" |};
    {| source := "available[:\s]*k[:\s=]*([0-9]+\.?[0-9]*)"; flags := "i" |} ].

Definition parseSoilDataFromText (text : string) : SoilData :=
  let soilData := emptySoilData in
  if String.eqb text "" then soilData
  else
    let lowerText := toLowerCase text in
    let soilData :=
      with_pH soilData
        (scan_patterns 0 14 lowerText pHPatterns (pH soilData)) in
    let soilData :=
      with_nitrogen soilData
        (scan_patterns 0 10 lowerText nitrogenPatterns (nitrogen soilData)) in
    let soilData :=
      with_phosphorus soilData
        (scan_patterns 0 5 lowerText phosphorusPatterns (phosphorus soilData)) in
    let soilData :=
      with_potassium soilData
        (scan_patterns 0 8 lowerText potassiumPatterns (potassium soilData)) in
    soilData.

(** [Object.keys(soilData).length]: the properties that were assigned. *)
Definition has_key {A : Type} (v : option A) : nat :=
  match v with
  | Some _ => 1
  | None => 0
  end.

Definition keys_length (s : SoilData) : nat :=
  has_key (pH s) + has_key (nitrogen s) + has_key (phosphorus s)
  + has_key (potassium s) + has_key (location s).

Definition defaultSoilData : SoilData :=
  {| pH := Some 6.5; nitrogen := Some 0.8; phosphorus := Some 0.15;
     potassium := Some 0.9; location := None |}.

(** [analyzeImageForSoilData]; [extracted] is how the calls inside the
    [try] block went: the text [extractTextFromImage] returned, or a
    failure of the browser calls around it. *)
Definition analyzeImageForSoilData (extracted : completion string) : SoilData :=
  match extracted with
  | Fulfilled extractedText =>
      let soilData := parseSoilDataFromText extractedText in
      if (keys_length soilData =? 0)%nat then defaultSoilData
      else soilData
  | Rejected _ => defaultSoilData
  end.

(** The properties of a [File] the page reads. *)
Record File : Set := { type : string; size : number }.

(** [Array.prototype.includes] on strings. *)
Definition includes (l : list string) (t : string) : bool :=
  existsb (String.eqb t) l.

Definition isValidImageFile (file : File) : bool :=
  let allowedTypes := ["image/jpeg"; "image/jpg"; "image/png"; "image/webp"] in
  if negb (includes allowedTypes (toLowerCase (type file))) then false
  else
    let maxSize := 10 * 1024 * 1024 in
    if maxSize <? size file then false
    else true.

(** ** The form (src/app/layout.tsx) *)

Inductive SoilField : Set :=
| field_pH | field_nitrogen | field_phosphorus | field_potassium
| field_location.

(** [x || undefined]. *)
Definition or_undefined (x : number) : option number :=
  if ToBoolean x then Some x else None.

(** [updateSoilData (field, value)], as the update it applies to the form
    data. *)
Definition updateSoilData (field : SoilField) (value : string)
    (prev : FormData) : FormData :=
  {| soilData :=
       match field with
       | field_location => with_location (soilData prev) (Some value)
       | field_pH =>
           with_pH (soilData prev) (or_undefined (parseFloat value))
       | field_nitrogen =>
           with_nitrogen (soilData prev) (or_undefined (parseFloat value))
       | field_phosphorus =>
           with_phosphorus (soilData prev) (or_undefined (parseFloat value))
       | field_potassium =>
           with_potassium (soilData prev) (or_undefined (parseFloat value))
       end;
     farmSize := farmSize prev;
     crops := crops prev |}.

(** Object spread [{ ...a, ...b }] of two readings. *)
Definition spread (a b : SoilData) : SoilData :=
  {| pH := match pH b with Some v => Some v | None => pH a end;
     nitrogen := match nitrogen b with Some v => Some v | None => nitrogen a end;
     phosphorus :=
       match phosphorus b with Some v => Some v | None => phosphorus a end;
     potassium :=
       match potassium b with Some v => Some v | None => potassium a end;
     location := match location b with Some v => Some v | None => location a end |}.

(** [handleImageUpload], as the update it applies to the form data modelled
    here (the chosen file itself is recorded in every case): none without a
    file or for a file that is not valid (the error is caught and shown),
    otherwise the extracted reading spread over the current one. *)
Definition handleImageUpload (file : option File)
    (extracted : completion string) (prev : FormData) : FormData :=
  match file with
  | None => prev
  | Some file =>
      if negb (isValidImageFile file) then prev
      else
        let extractedData := analyzeImageForSoilData extracted in
        {| soilData := spread (soilData prev) extractedData;
           farmSize := farmSize prev;
           crops := crops prev |}
  end.

End ImageUtils.

(** * Vocabulary of the properties *)

(** ** The defaulted readings *)

(** The four values the calculator works with, after the [||] defaults. *)
Definition pH_of (s : SoilData) : number := or_default (pH s) 6.5.
Definition nitrogen_of (s : SoilData) : number := or_default (nitrogen s) 0.8.
Definition phosphorus_of (s : SoilData) : number := or_default (phosphorus s) 0.15.
Definition potassium_of (s : SoilData) : number := or_default (potassium s) 0.9.

(** The guards of the two conditional crops. *)
Definition tomato_ok (s : SoilData) : bool :=
  (6.0 <=? pH_of s) && (pH_of s <=? 7.0) && (0.6 <=? nitrogen_of s).
Definition pepper_ok (s : SoilData) : bool :=
  0.7 <=? potassium_of s.

Definition crops_of (s : SoilData) : list CropRecommendation :=
  recommendedCrops (generateRecommendations s).

Definition has_name (n : string) (c : CropRecommendation) : bool :=
  String.eqb (name c) n.

(** ** Scores *)

(** A score within the cap. *)
Definition at_most_95 (c : CropRecommendation) : Prop :=
  (suitability c <=? 95) = true.

(** ** The readings the claims name *)

Definition reading_C1 : SoilData :=
  {| pH := Some 9; nitrogen := Some 0; phosphorus := None;
     potassium := Some 0; location := None |}.

Definition reading_C8 : SoilData :=
  {| pH := Some 6.5; nitrogen := Some 0.9; phosphorus := None;
     potassium := None; location := None |}.

Definition reading_overflow : SoilData :=
  {| pH := Some 1e308; nitrogen := None; phosphorus := Some 1e307;
     potassium := None; location := None |}.

(** ** Results of binary64 rounding *)

(** What rounding [m * 2^e] gives: never [NaN], and a finite result has an
    exponent at most one above [max e (fexp (digits m + e))]. *)
Definition rounded_within (E : Z) (f : spec_float) : Prop :=
  match f with
  | S754_zero _ => True
  | S754_finite _ _ e => (e <= E)%Z
  | S754_infinity _ => (971 < E)%Z
  | S754_nan => False
  end.

(** Finite numbers whose exponent is at most [E]. *)
Definition finite_below (E : Z) (f : spec_float) : Prop :=
  match f with
  | S754_zero _ => True
  | S754_finite _ _ e => (e <= E)%Z
  | _ => False
  end.

(** The same, on numbers. *)
Definition fin (E : Z) (x : number) : Prop := finite_below E (Prim2SF x).

(** ** Advisories, validation and the form *)

(** The advisories of a reading. *)
Definition improvements_of (s : SoilData) : list string :=
  improvements (soilHealth (generateRecommendations s)).

(** The list of improvements, written out. *)
Definition advisories (s : SoilData) : list string :=
  ((if pH_of s <? 6.0 then ["Apply lime to increase pH"]
    else if 7.5 <? pH_of s then ["Apply sulfur to decrease pH"] else [])
   ++ (if nitrogen_of s <? 0.5
       then ["Increase nitrogen with organic compost"] else [])
   ++ (if phosphorus_of s <? 0.1 then ["Add phosphate fertilizer"] else [])
   ++ (if potassium_of s <? 0.8
       then ["Apply potassium-rich fertilizer"] else []))%list.

(** No threshold of the advisories is crossed. *)
Definition no_advisory (s : SoilData) : bool :=
  negb (pH_of s <? 6.0) && negb (7.5 <? pH_of s)
  && negb (nitrogen_of s <? 0.5) && negb (phosphorus_of s <? 0.1)
  && negb (potassium_of s <? 0.8).

(** Sample readings, forms and files. *)
Definition reading_poor : SoilData :=
  {| pH := None; nitrogen := Some 0.3; phosphorus := Some 0.05;
     potassium := Some 0.75; location := None |}.

(** An optional value that, when present, is a number within [lo, hi]. *)
Definition within (lo hi : number) (v : option number) : Prop :=
  match v with
  | Some x => (lo <=? x) = true /\ (x <=? hi) = true /\ is_nan x = false
  | None => True
  end.

(** A field that was dropped or kept as it was. *)
Definition dropped_or_kept {A : Type} (after before : option A) : Prop :=
  after = None \/ after = before.

(** What validation leaves of one field. *)
Definition keep (lo hi : number) (v : option number) : option number :=
  match v with
  | Some x => if (lo <=? x) && (x <=? hi) then Some x else None
  | None => None
  end.

(** A runtime that finds no match and parses no number. *)
Definition blind_runtime : Runtime :=
  {| toLowerCase := fun t => t;
     String_match := fun _ _ => None;
     parseFloat := fun _ => nan |}.

(** A runtime whose every match reads the number 7. *)
Definition sevens_runtime : Runtime :=
  {| toLowerCase := fun t => t;
     String_match := fun t _ => Some [t; t];
     parseFloat := fun _ => 7 |}.

Definition png_file : File := {| type := "image/png"; size := 2048 |}.

(** A stored field the calculator will not replace by a default. *)
Definition entered (v : option number) : Prop :=
  match v with
  | Some x => ToBoolean x = true
  | None => True
  end.

Definition form_of (s : SoilData) : FormData :=
  {| soilData := s; farmSize := None; crops := None |}.

(** A field of the merged reading: the one read from the image when there
    is one, the previous one otherwise. *)
Definition merged (new image previous : option number) : Prop :=
  match image with
  | Some x => new = Some x
  | None => new = previous
  end.

Definition huge_file : File := {| type := "image/png"; size := 20000000 |}.

(** * Properties *)

(** ** The number layer on known values *)

Example Math_round_values :
  map Math_round [22.2; 0.5; -0.5; 2.5; -2.5; 175; 0.49999999999999994]
  = [22; 1; -0; 3; -2; 175; 0].
Proof. vm_compute. reflexivity. Qed.

Example Math_min_values :
  map (Math_min 95) [108.1; 3; infinity; neg_infinity; nan]
  = [95; 3; 95; neg_infinity; nan].
Proof. vm_compute. reflexivity. Qed.

Example Number_toString_values :
  map Number_toString
      [240; 0.1; 0.1 + 0.2; -1.5; 1e20; 1e21; 0.000001; 1e-7; -0; nan;
       infinity]
  = ["240"; "0.1"; "0.30000000000000004"; "-1.5"; "100000000000000000000";
     "1e+21"; "0.000001"; "1e-7"; "0"; "NaN"; "Infinity"].
Proof. vm_compute. reflexivity. Qed.

Example or_default_values :
  map (fun a => or_default a 6.5) [None; Some 0; Some (-0); Some nan; Some 7; Some 6.5]
  = [6.5; 6.5; 6.5; 6.5; 7; 6.5].
Proof. vm_compute. reflexivity. Qed.

(** ** The order of binary64 *)

Section FloatOrder.

Lemma SFltb_SFleb (a b : spec_float) :
  SFltb a b = true -> SFleb a b = true.
Proof.
  unfold SFltb, SFleb.
  destruct (SFcompare a b) as [[ | | ] | ]; intro H; try discriminate H; reflexivity.
Qed.

Lemma SFltb_trans (a b c : spec_float) :
  SFltb a b = true -> SFltb b c = true -> SFltb a c = true.
Proof.
  unfold SFltb, SFcompare.
  destruct a as [sa | sa | | sa ma ea], b as [sb | sb | | sb mb eb],
           c as [sc | sc | | sc mc ec];
    try destruct sa; try destruct sb; try destruct sc;
    try discriminate; try reflexivity.
  all: rewrite ?Pos.compare_cont_spec; simpl.
  all: destruct (Z.compare_spec ea eb), (Z.compare_spec eb ec),
                (Z.compare_spec ea ec);
    try discriminate; try reflexivity; try lia; subst.
  all: rewrite ?Pos.compare_cont_spec; simpl.
  all: destruct (Pos.compare_spec ma mb), (Pos.compare_spec mb mc),
                (Pos.compare_spec ma mc);
    simpl; try discriminate; try reflexivity; try lia.
Qed.

Lemma ltb_leb (x y : number) : (x <? y) = true -> (x <=? y) = true.
Proof. rewrite ltb_spec, leb_spec. apply SFltb_SFleb. Qed.

Lemma ltb_trans (x y z : number) :
  (x <? y) = true -> (y <? z) = true -> (x <? z) = true.
Proof. rewrite !ltb_spec. apply SFltb_trans. Qed.

End FloatOrder.

(** ** Rounding in binary64

    When does an operation stay finite?  The lemmas below follow the
    rounding functions of the binary64 specification and bound the exponent
    of a rounded result, which is what decides overflow. *)

Section BinaryRounding.

Local Open Scope Z_scope.

(** The number of binary digits of a mantissa. *)
Lemma digits2_pos_size (p : positive) : digits2_pos p = Pos.size p.
Proof. induction p; simpl; congruence. Qed.

Lemma Zdigits2_pos (p : positive) : Zdigits2 (Z.pos p) = Z.pos (Pos.size p).
Proof. simpl. now rewrite digits2_pos_size. Qed.

Lemma pos_lt_pow_size (p : positive) : Z.pos p < 2 ^ Z.pos (Pos.size p).
Proof.
  pose proof (Pos.size_gt p) as H.
  apply Pos2Z.pos_lt_pos in H. now rewrite Pos2Z.inj_pow in H.
Qed.

Lemma size_le_of_lt_pow (p : positive) (k : Z) :
  Z.pos p < 2 ^ k -> Z.pos (Pos.size p) <= k.
Proof.
  intro H.
  assert (0 <= k) as Hk.
  { destruct k; try lia. rewrite Z.pow_neg_r in H; lia. }
  pose proof (Pos.size_le p) as L.
  apply Pos2Z.pos_le_pos in L. rewrite Pos2Z.inj_pow in L.
  change (Z.pos p~0) with (2 * Z.pos p) in L.
  destruct (Z_lt_le_dec k (Z.pos (Pos.size p))) as [G | G]; [ | exact G].
  exfalso.
  assert (2 ^ (k + 1) <= 2 ^ Z.pos (Pos.size p)) by (apply Z.pow_le_mono_r; lia).
  rewrite Z.pow_add_r, Z.pow_1_r in H0 by lia. lia.
Qed.

(** Shifting a mantissa right never makes it negative, and only makes it
    smaller. *)
Lemma shr_1_spec (mrs : shr_record) :
  0 <= shr_m mrs ->
  0 <= shr_m (shr_1 mrs) /\ shr_m (shr_1 mrs) * 2 <= shr_m mrs.
Proof.
  destruct mrs as [m r s]. simpl.
  destruct m as [ | [q | q | ] | q]; simpl; lia.
Qed.

Lemma iter_shr_1_spec (p : positive) :
  forall mrs : shr_record,
    0 <= shr_m mrs ->
    0 <= shr_m (SpecFloat.iter_pos shr_1 p mrs)
    /\ shr_m (SpecFloat.iter_pos shr_1 p mrs) * 2 ^ Z.pos p <= shr_m mrs.
Proof.
  induction p as [p IH | p IH | ]; intros mrs H; simpl SpecFloat.iter_pos.
  - destruct (shr_1_spec mrs H) as [H1 L1].
    destruct (IH _ H1) as [H2 L2]. destruct (IH _ H2) as [H3 L3].
    split; [exact H3 | ].
    replace (Z.pos p~1) with (Z.pos p + Z.pos p + 1) by lia.
    rewrite !Z.pow_add_r by lia. 
    assert (0 < 2 ^ Z.pos p) by (apply Z.pow_pos_nonneg; lia).
    nia.
  - destruct (IH _ H) as [H2 L2]. destruct (IH _ H2) as [H3 L3].
    split; [exact H3 | ].
    replace (Z.pos p~0) with (Z.pos p + Z.pos p) by lia.
    rewrite !Z.pow_add_r by lia.
    assert (0 < 2 ^ Z.pos p) by (apply Z.pow_pos_nonneg; lia).
    nia.
  - apply shr_1_spec. exact H.
Qed.

Lemma shr_spec (mrs : shr_record) (e n : Z) :
  0 <= shr_m mrs ->
  0 <= shr_m (fst (shr mrs e n))
  /\ shr_m (fst (shr mrs e n)) * 2 ^ Z.max n 0 <= shr_m mrs
  /\ snd (shr mrs e n) = e + Z.max n 0.
Proof.
  intro H. destruct n as [ | p | p]; simpl.
  - repeat split; lia.
  - destruct (iter_shr_1_spec p mrs H) as [H1 L1].
    repeat split; trivial; lia.
  - repeat split; lia.
Qed.

Lemma shr_m_of_loc (m : Z) (l : SpecFloat.location) :
  shr_m (shr_record_of_loc m l) = m.
Proof. destruct l as [ | [ | | ]]; reflexivity. Qed.

Lemma round_nearest_even_bounds (m : Z) (l : SpecFloat.location) :
  m <= round_nearest_even m l <= m + 1.
Proof.
  destruct l as [ | [ | | ]]; simpl; try lia.
  destruct (Z.even m); lia.
Qed.

(** The exponent range of binary64. *)
Lemma fexp_eq (x : Z) : fexp prec emax x = Z.max (x - 53) (-1074).
Proof. reflexivity. Qed.

Lemma binary_round_aux_within (s : bool) (m : positive) (e : Z) (l : SpecFloat.location) :
  rounded_within (Z.max e (fexp prec emax (Zdigits2 (Z.pos m) + e)) + 1)
                 (binary_round_aux prec emax s (Z.pos m) e l).
Proof.
  unfold binary_round_aux, shr_fexp.
  rewrite Zdigits2_pos. set (d := Z.pos (Pos.size m)).
  assert (Z.pos m < 2 ^ d) as Hm by apply pos_lt_pow_size.
  assert (0 < d) as Hd by (unfold d; lia).
  set (f1 := fexp prec emax (d + e)).
  assert (f1 = Z.max (d + e - 53) (-1074)) as Hf1 by reflexivity.
  destruct (shr (shr_record_of_loc (Z.pos m) l) e (f1 - e)) as [mrs1 e1] eqn:S1.
  pose proof (shr_spec (shr_record_of_loc (Z.pos m) l) e (f1 - e)) as P1.
  rewrite S1, shr_m_of_loc in P1. simpl fst in P1; simpl snd in P1.
  destruct P1 as [N1 [L1 E1]]; [lia | ].
  (* the shifted mantissa has at most 53 digits *)
  assert (shr_m mrs1 < 2 ^ 53) as B1.
  { destruct (Z_le_gt_dec (f1 - e) 0) as [G | G].
    - rewrite Z.max_r in L1 by lia. rewrite Z.pow_0_r in L1.
      assert (2 ^ d <= 2 ^ 53) by (apply Z.pow_le_mono_r; lia). lia.
    - rewrite Z.max_l in L1 by lia.
      assert (0 < 2 ^ (f1 - e)) by (apply Z.pow_pos_nonneg; lia).
      destruct (Z_le_gt_dec d (f1 - e)) as [G' | G'].
      + assert (2 ^ d <= 2 ^ (f1 - e)) by (apply Z.pow_le_mono_r; lia).
        assert (0 < 2 ^ 53) by (apply Z.pow_pos_nonneg; lia). nia.
      + assert (2 ^ d = 2 ^ (d - (f1 - e)) * 2 ^ (f1 - e)) as Hs
          by (rewrite <- Z.pow_add_r by lia; f_equal; lia).
        assert (2 ^ (d - (f1 - e)) <= 2 ^ 53) by (apply Z.pow_le_mono_r; lia).
        nia. }
  set (m2 := round_nearest_even (shr_m mrs1) (loc_of_shr_record mrs1)).
  pose proof (round_nearest_even_bounds (shr_m mrs1) (loc_of_shr_record mrs1)) as R.
  fold m2 in R.
  set (f2 := fexp prec emax (Zdigits2 m2 + e1)).
  assert (f2 <= e1 + 1) as Hf2.
  { unfold f2. rewrite fexp_eq.
    assert (Zdigits2 m2 <= 54) as D2.
    { destruct m2 as [ | p | p]; [simpl; lia | | lia].
      rewrite Zdigits2_pos. apply size_le_of_lt_pow.
      change (2 ^ 54) with (2 * 2 ^ 53). lia. }
    lia. }
  destruct (shr (shr_record_of_loc m2 loc_Exact) e1 (f2 - e1)) as [mrs2 e2] eqn:S2.
  pose proof (shr_spec (shr_record_of_loc m2 loc_Exact) e1 (f2 - e1)) as P2.
  rewrite S2, shr_m_of_loc in P2. simpl fst in P2; simpl snd in P2.
  destruct P2 as [N2 [L2 E2]]; [lia | ].
  destruct (shr_m mrs2) as [ | p | p] eqn:M2; [exact I | | lia].
  destruct (e2 <=? emax - prec) eqn:O; simpl.
  - lia.
  - apply Z.leb_gt in O. change (emax - prec) with 971 in O. lia.
Qed.

Lemma rounded_within_mono (E E' : Z) (f : spec_float) :
  E <= E' -> rounded_within E f -> rounded_within E' f.
Proof. destruct f; simpl; lia. Qed.

(** Aligning a mantissa to a smaller exponent keeps its value. *)
Lemma shl_align_spec (mx : positive) (ex ex' : Z) :
  snd (shl_align mx ex ex') = Z.min ex ex'
  /\ Z.pos (fst (shl_align mx ex ex'))
     = Z.pos mx * 2 ^ (ex - snd (shl_align mx ex ex')).
Proof.
  unfold shl_align. destruct (ex' - ex) as [ | d | d] eqn:D; cbn [fst snd].
  - split; [lia | ]. rewrite Z.sub_diag, Z.pow_0_r. lia.
  - split; [lia | ]. rewrite Z.sub_diag, Z.pow_0_r. lia.
  - split; [lia | ].
    change (Pos.iter xO mx d) with (shift_pos d mx).
    rewrite shift_pos_correct, Z.pow_pos_fold.
    replace (ex - ex') with (Z.pos d) by lia. lia.
Qed.

Lemma fexp_mono (x y : Z) :
  x <= y -> fexp prec emax x <= fexp prec emax y.
Proof. rewrite !fexp_eq. lia. Qed.

Lemma binary_round_within (s : bool) (m : positive) (e : Z) :
  rounded_within (Z.max e (fexp prec emax (Zdigits2 (Z.pos m) + e)) + 1)
                 (binary_round prec emax s m e).
Proof.
  unfold binary_round.
  change (Z.pos (digits2_pos m)) with (Zdigits2 (Z.pos m)).
  set (f := fexp prec emax (Zdigits2 (Z.pos m) + e)).
  destruct (shl_align_spec m e f) as [He Hm].
  destruct (shl_align m e f) as [mz ez]. cbn [fst snd] in He, Hm.
  eapply rounded_within_mono; [ | apply binary_round_aux_within].
  assert (Zdigits2 (Z.pos mz) + ez <= Zdigits2 (Z.pos m) + e) as D.
  { rewrite !Zdigits2_pos.
    assert (Z.pos (Pos.size mz) <= Z.pos (Pos.size m) + (e - ez)); [ | lia].
    apply size_le_of_lt_pow. rewrite Hm, Z.pow_add_r by lia.
    pose proof (pos_lt_pow_size m).
    assert (0 < 2 ^ (e - ez)) by (apply Z.pow_pos_nonneg; lia). nia. }
  apply fexp_mono in D. fold f in D. lia.
Qed.

Lemma binary_normalize_within (M e K : Z) (sz : bool) :
  Z.abs M < 2 ^ K ->
  rounded_within (Z.max e (fexp prec emax (K + e)) + 1)
                 (binary_normalize prec emax M e sz).
Proof.
  intro H. destruct M as [ | m | m]; simpl binary_normalize; [exact I | | ].
  all: eapply rounded_within_mono; [ | apply binary_round_within].
  all: assert (Zdigits2 (Z.pos m) <= K) as D
         by (rewrite Zdigits2_pos; apply size_le_of_lt_pow; exact H).
  all: assert (Zdigits2 (Z.pos m) + e <= K + e) as D' by lia.
  all: apply fexp_mono in D'; lia.
Qed.

Lemma rounded_finite (E : Z) (f : spec_float) :
  E <= 971 -> rounded_within E f -> finite_below E f.
Proof. destruct f; simpl; lia. Qed.

Lemma finite_below_mono (E E' : Z) (f : spec_float) :
  E <= E' -> finite_below E f -> finite_below E' f.
Proof. destruct f; simpl; lia. Qed.

Lemma valid_mantissa (s : bool) (m : positive) (e : Z) :
  valid_binary (S754_finite s m e) = true -> Z.pos m < 2 ^ 53.
Proof.
  simpl. unfold bounded, canonical_mantissa. intro H.
  apply andb_prop in H. destruct H as [H _]. apply Z.eqb_eq in H.
  rewrite fexp_eq in H. rewrite digits2_pos_size in H.
  pose proof (pos_lt_pow_size m).
  assert (2 ^ Z.pos (Pos.size m) <= 2 ^ 53) by (apply Z.pow_le_mono_r; lia).
  lia.
Qed.

Lemma abs_cond_Zopp (s : bool) (p : positive) :
  Z.abs (cond_Zopp s (Z.pos p)) = Z.pos p.
Proof. destruct s; reflexivity. Qed.

(** The sum or difference of two aligned mantissas. *)
Lemma aligned_sum_within (sx sy : bool) (mx my : positive) (ex ey : Z)
      (op : Z -> Z -> Z) :
  (forall a b, Z.abs (op a b) <= Z.abs a + Z.abs b) ->
  Z.pos mx < 2 ^ 53 -> Z.pos my < 2 ^ 53 ->
  rounded_within
    (Z.max (Z.max ex ey) (-1075) + 2)
    (binary_normalize prec emax
       (op (cond_Zopp sx (Z.pos (fst (shl_align mx ex (Z.min ex ey)))))
           (cond_Zopp sy (Z.pos (fst (shl_align my ey (Z.min ex ey))))))
       (Z.min ex ey) false).
Proof.
  intros Hop Hx Hy. set (ez := Z.min ex ey).
  destruct (shl_align_spec mx ex ez) as [Ex' Mx'].
  destruct (shl_align_spec my ey ez) as [Ey' My'].
  rewrite Ex' in Mx'. rewrite Ey' in My'.
  replace (Z.min ex ez) with ez in Mx' by lia.
  replace (Z.min ey ez) with ez in My' by lia.
  set (K := 54 + Z.max ex ey - ez).
  eapply rounded_within_mono;
    [ | apply (binary_normalize_within _ ez K false)].
  - rewrite fexp_eq. unfold K. lia.
  - eapply Z.le_lt_trans; [apply Hop | ].
    assert (Z.abs (cond_Zopp sx (Z.pos (fst (shl_align mx ex ez))))
            < 2 ^ (53 + Z.max ex ey - ez)) as Ax.
    { rewrite abs_cond_Zopp, Mx'.
      assert (0 < 2 ^ (ex - ez)) by (apply Z.pow_pos_nonneg; lia).
      assert (2 ^ (ex - ez) <= 2 ^ (Z.max ex ey - ez))
        by (apply Z.pow_le_mono_r; lia).
      replace (53 + Z.max ex ey - ez) with (53 + (Z.max ex ey - ez)) by lia.
      rewrite Z.pow_add_r by lia. nia. }
    assert (Z.abs (cond_Zopp sy (Z.pos (fst (shl_align my ey ez))))
            < 2 ^ (53 + Z.max ex ey - ez)) as Ay.
    { rewrite abs_cond_Zopp, My'.
      assert (0 < 2 ^ (ey - ez)) by (apply Z.pow_pos_nonneg; lia).
      assert (2 ^ (ey - ez) <= 2 ^ (Z.max ex ey - ez))
        by (apply Z.pow_le_mono_r; lia).
      replace (53 + Z.max ex ey - ez) with (53 + (Z.max ex ey - ez)) by lia.
      rewrite Z.pow_add_r by lia. nia. }
    unfold K. replace (54 + Z.max ex ey - ez) with (1 + (53 + Z.max ex ey - ez)) by lia.
    rewrite Z.pow_add_r by lia. lia.
Qed.

Lemma binary_normalize_not_nan (M e : Z) (sz : bool) :
  binary_normalize prec emax M e sz <> S754_nan.
Proof.
  destruct M as [ | m | m]; simpl binary_normalize; [discriminate | | ].
  - pose proof (binary_round_within false m e) as W.
    intro H. rewrite H in W. exact W.
  - pose proof (binary_round_within true m e) as W.
    intro H. rewrite H in W. exact W.
Qed.

Lemma SFsub_within (x y : spec_float) (Ex Ey : Z) :
  valid_binary x = true -> valid_binary y = true ->
  finite_below Ex x -> finite_below Ey y ->
  rounded_within (Z.max (Z.max Ex Ey) (-1075) + 2) (SFsub prec emax x y).
Proof.
  intros Vx Vy Fx Fy.
  destruct x as [sx | sx | | sx mx ex], y as [sy | sy | | sy my ey];
    simpl in Fx, Fy; try contradiction.
  - destruct sx, sy; exact I.
  - simpl. lia.
  - simpl. lia.
  - unfold SFsub.
    eapply rounded_within_mono;
      [ | apply (aligned_sum_within sx sy mx my ex ey Z.sub)].
    + lia.
    + intros a b. lia.
    + exact (valid_mantissa _ _ _ Vx).
    + exact (valid_mantissa _ _ _ Vy).
Qed.

Lemma SFmul_within (x y : spec_float) (Ex Ey : Z) :
  valid_binary x = true -> valid_binary y = true ->
  finite_below Ex x -> finite_below Ey y ->
  rounded_within (Z.max (Ex + Ey + 53) (-1074) + 1) (SFmul prec emax x y).
Proof.
  intros Vx Vy Fx Fy.
  destruct x as [sx | sx | | sx mx ex], y as [sy | sy | | sy my ey];
    simpl in Fx, Fy; try contradiction; try exact I.
  unfold SFmul.
  eapply rounded_within_mono; [ | apply binary_round_aux_within].
  rewrite fexp_eq.
  assert (Zdigits2 (Z.pos (mx * my)) <= 106) as D.
  { rewrite Zdigits2_pos. apply size_le_of_lt_pow.
    pose proof (valid_mantissa _ _ _ Vx). pose proof (valid_mantissa _ _ _ Vy).
    rewrite Pos2Z.inj_mul. change (2 ^ 106) with (2 ^ 53 * 2 ^ 53). nia. }
  lia.
Qed.

(** A sum is [NaN] only from a [NaN] or from two infinities. *)
Lemma SFadd_nan (x y : spec_float) :
  SFadd prec emax x y = S754_nan ->
  x = S754_nan \/ y = S754_nan
  \/ (exists sx sy, x = S754_infinity sx /\ y = S754_infinity sy).
Proof.
  destruct x as [sx | sx | | sx mx ex], y as [sy | sy | | sy my ey];
    simpl; auto; try discriminate.
  - destruct sx, sy; discriminate.
  - intros _. right; right. exists sx, sy. auto.
  - intro H. apply binary_normalize_not_nan in H. contradiction.
Qed.

(** A product with a finite non-zero factor is [NaN] only from a [NaN]. *)
Lemma SFmul_nan (x : spec_float) (sy : bool) (my : positive) (ey : Z) :
  SFmul prec emax x (S754_finite sy my ey) = S754_nan -> x = S754_nan.
Proof.
  destruct x as [sx | sx | | sx mx ex]; simpl; auto; try discriminate.
  intro H.
  pose proof (binary_round_aux_within (xorb sx sy) (mx * my) (ex + ey) loc_Exact) as W.
  rewrite H in W. contradiction.
Qed.

End BinaryRounding.

(** The same, on numbers. *)

Lemma sub_fin (x y : number) (Ex Ey E : Z) :
  fin Ex x -> fin Ey y ->
  (Z.max (Z.max Ex Ey) (-1075) + 2 <= E)%Z -> (E <= 971)%Z ->
  fin E (x - y).
Proof.
  unfold fin. intros Fx Fy HE HE'. rewrite sub_spec.
  apply rounded_finite; [exact HE' | ].
  eapply rounded_within_mono; [exact HE | ].
  apply SFsub_within; auto using Prim2SF_valid.
Qed.

Lemma mul_fin (x y : number) (Ex Ey E : Z) :
  fin Ex x -> fin Ey y ->
  (Z.max (Ex + Ey + 53) (-1074) + 1 <= E)%Z -> (E <= 971)%Z ->
  fin E (x * y).
Proof.
  unfold fin. intros Fx Fy HE HE'. rewrite mul_spec.
  apply rounded_finite; [exact HE' | ].
  eapply rounded_within_mono; [exact HE | ].
  apply SFmul_within; auto using Prim2SF_valid.
Qed.

Lemma abs_fin (x : number) (E : Z) : fin E x -> fin E (Math_abs x).
Proof.
  unfold fin, Math_abs. rewrite abs_spec.
  destruct (Prim2SF x); simpl; auto.
Qed.

Lemma is_nan_spec (x : number) :
  is_nan x = match Prim2SF x with S754_nan => true | _ => false end.
Proof.
  unfold is_nan. rewrite FloatAxioms.eqb_spec. unfold SFeqb, SFcompare.
  destruct (Prim2SF x) as [s | s | | s m e]; try destruct s; try reflexivity.
  all: rewrite Z.compare_refl, Pcompare_refl; reflexivity.
Qed.

Lemma fin_not_nan (E : Z) (x : number) : fin E x -> is_nan x = false.
Proof.
  unfold fin. rewrite is_nan_spec.
  destruct (Prim2SF x); simpl; intro H; try reflexivity; contradiction.
Qed.

(** Adding a finite number never produces [NaN] from a number. *)
Lemma add_fin_not_nan (a b : number) (E : Z) :
  is_nan a = false -> fin E b -> is_nan (a + b) = false.
Proof.
  unfold fin. rewrite !is_nan_spec, add_spec. intros Ha Fb.
  destruct (SF64add (Prim2SF a) (Prim2SF b)) eqn:S; try reflexivity.
  apply SFadd_nan in S. destruct S as [S | [S | [sx [sy [_ S]]]]].
  - rewrite S in Ha. discriminate Ha.
  - rewrite S in Fb. contradiction.
  - rewrite S in Fb. contradiction.
Qed.

Lemma fin_add_not_nan (a b : number) (E : Z) :
  fin E a -> is_nan b = false -> is_nan (a + b) = false.
Proof.
  unfold fin. rewrite !is_nan_spec, add_spec. intros Fa Hb.
  destruct (SF64add (Prim2SF a) (Prim2SF b)) eqn:S; try reflexivity.
  apply SFadd_nan in S. destruct S as [S | [S | [sx [sy [S _]]]]].
  - rewrite S in Fa. contradiction.
  - rewrite S in Hb. discriminate Hb.
  - rewrite S in Fa. contradiction.
Qed.

(** Scaling a number by a finite non-zero constant never produces [NaN]. *)
Lemma mul_const_not_nan (x k : number) :
  is_nan x = false ->
  (exists s m e, Prim2SF k = S754_finite s m e) ->
  is_nan (x * k) = false.
Proof.
  rewrite !is_nan_spec, mul_spec. intros Hx [s [m [e Hk]]]. rewrite Hk.
  destruct (SF64mul (Prim2SF x) (S754_finite s m e)) eqn:S; try reflexivity.
  apply SFmul_nan in S. rewrite S in Hx. discriminate Hx.
Qed.

(** A number of magnitude at most 1e300 is finite, with a small exponent. *)
Lemma abs_le_1e300_fin (x : number) :
  (Math_abs x <=? 1e300) = true -> fin 944 x.
Proof.
  unfold fin, Math_abs. rewrite leb_spec, abs_spec.
  replace (Prim2SF 1e300) with (S754_finite false 6724873095247260 944)
    by (vm_compute; reflexivity).
  unfold SFleb, SFcompare.
  destruct (Prim2SF x) as [s | s | | s m e];
    cbn [SFabs finite_below]; try discriminate; auto.
  destruct (Z.compare_spec e 944); try discriminate; intros _; lia.
Qed.

(** ** The defaulted readings *)

Lemma or_default_None (d : number) : or_default None d = d.
Proof. reflexivity. Qed.

Lemma or_default_zero (x d : number) :
  (x =? 0) = true -> or_default (Some x) d = d.
Proof.
  intro Hx. unfold or_default, ToBoolean.
  change (is_zero x) with (x =? 0).
  rewrite Hx, orb_true_r. reflexivity.
Qed.

(** The result depends on the reading only through the defaulted values. *)
Lemma generateRecommendations_ext (s1 s2 : SoilData) :
  pH_of s1 = pH_of s2 ->
  nitrogen_of s1 = nitrogen_of s2 ->
  phosphorus_of s1 = phosphorus_of s2 ->
  potassium_of s1 = potassium_of s2 ->
  generateRecommendations s1 = generateRecommendations s2.
Proof.
  unfold pH_of, nitrogen_of, phosphorus_of, potassium_of, generateRecommendations.
  intros -> -> -> ->. reflexivity.
Qed.

Lemma crop_names (s : SoilData) :
  map name (crops_of s) =
  ((if tomato_ok s then ["Tomato"] else [])
     ++ "Lettuce" :: (if pepper_ok s then ["Pepper"] else []))%list.
Proof.
  unfold crops_of, generateRecommendations, tomato_ok, pepper_ok.
  fold (pH_of s) (nitrogen_of s) (phosphorus_of s) (potassium_of s).
  destruct ((6.0 <=? pH_of s) && (pH_of s <=? 7.0) && (0.6 <=? nitrogen_of s));
    destruct (0.7 <=? potassium_of s); reflexivity.
Qed.

Lemma crops_count (s : SoilData) :
  (1 <= List.length (crops_of s) <= 3)%nat.
Proof.
  rewrite <- (length_map name), crop_names.
  destruct (tomato_ok s), (pepper_ok s); simpl; lia.
Qed.

Lemma status_spec (s : SoilData) :
  status (soilHealth (generateRecommendations s)) =
  if pH_of s <? 6.0 then "Acidic"
  else if 7.5 <? pH_of s then "Alkaline"
  else "Good".
Proof.
  unfold generateRecommendations. fold (pH_of s).
  destruct (pH_of s <? 6.0); [reflexivity | ].
  destruct (7.5 <? pH_of s); reflexivity.
Qed.

(** The advisory of the branch taken is the first element pushed, and no
    later step removes it. *)
Lemma lime_advisory (s : SoilData) :
  (pH_of s <? 6.0) = true ->
  In "Apply lime to increase pH"
     (improvements (soilHealth (generateRecommendations s))).
Proof.
  intro H. unfold generateRecommendations.
  fold (pH_of s) (nitrogen_of s) (phosphorus_of s) (potassium_of s).
  rewrite H.
  destruct (nitrogen_of s <? 0.5), (phosphorus_of s <? 0.1),
           (potassium_of s <? 0.8); simpl; auto.
Qed.

Lemma sulfur_advisory (s : SoilData) :
  (pH_of s <? 6.0) = false -> (7.5 <? pH_of s) = true ->
  In "Apply sulfur to decrease pH"
     (improvements (soilHealth (generateRecommendations s))).
Proof.
  intros H6 H75. unfold generateRecommendations.
  fold (pH_of s) (nitrogen_of s) (phosphorus_of s) (potassium_of s).
  rewrite H6, H75.
  destruct (nitrogen_of s <? 0.5), (phosphorus_of s <? 0.1),
           (potassium_of s <? 0.8); simpl; auto.
Qed.

(** A number above 7.5 is not below 6. *)
Lemma above_7_5_not_below_6 (x : number) :
  (7.5 <? x) = true -> (x <? 6.0) = false.
Proof.
  intro H. destruct (x <? 6.0) eqn:E; [ | reflexivity].
  pose proof (ltb_trans _ _ _ H E) as F. vm_compute in F. discriminate F.
Qed.

Lemma handleSubmit_spec (formData : FormData) :
  handleSubmit formData = generateRecommendations (soilData formData).
Proof. reflexivity. Qed.

(** ** Scores of readings with a finite pH *)

(** A constant of the source is finite, with the exponent shown. *)
Ltac fin_const :=
  unfold fin;
  match goal with
  | |- finite_below _ (Prim2SF ?c) =>
      let v := eval vm_compute in (Prim2SF c) in
      change (Prim2SF c) with v
  end;
  cbn [finite_below]; lia.

Ltac finite_const :=
  match goal with
  | |- exists s m e, Prim2SF ?c = S754_finite s m e =>
      let v := eval vm_compute in (Prim2SF c) in
      change (Prim2SF c) with v; do 3 eexists; reflexivity
  end.

Lemma or_default_not_nan (a : option number) (d : number) :
  is_nan d = false -> is_nan (or_default a d) = false.
Proof.
  intro Hd. unfold or_default, ToBoolean. destruct a as [x | ]; [ | exact Hd].
  destruct (is_nan x) eqn:E; [exact Hd | ].
  destruct (is_zero x); [exact Hd | exact E].
Qed.

(** The pH term [(c2 - |pH - c1|) * c3] of a score is finite when the pH
    is. *)
Lemma pH_term_fin (x c1 c2 c3 : number) :
  fin 944 x -> fin (-50) c1 -> fin (-49) c2 -> fin (-50) c3 ->
  fin 952 ((c2 - Math_abs (x - c1)) * c3).
Proof.
  intros Hx H1 H2 H3.
  apply (mul_fin _ _ 948 (-50)); [ | exact H3 | lia | lia].
  apply (sub_fin _ _ (-49) 946); [exact H2 | | lia | lia].
  apply abs_fin.
  apply (sub_fin _ _ 944 (-50)); [exact Hx | exact H1 | lia | lia].
Qed.

(** The sum under the cap is a number when the pH is finite. *)
Lemma score_not_nan (b0 x k c1 c2 c3 v : number) :
  fin 0 b0 ->
  (exists s m e, Prim2SF k = S754_finite s m e) ->
  is_nan v = false ->
  fin 944 x -> fin (-50) c1 -> fin (-49) c2 -> fin (-50) c3 ->
  is_nan (b0 + (v * k) + (c2 - Math_abs (x - c1)) * c3) = false.
Proof.
  intros Hb Hk Hv Hx H1 H2 H3.
  apply (add_fin_not_nan _ _ 952); [ | apply pH_term_fin; assumption].
  apply (fin_add_not_nan _ _ 0); [exact Hb | ].
  apply mul_const_not_nan; assumption.
Qed.

Lemma Math_min_95_number (v : number) :
  is_nan v = false -> (Math_min 95 v <=? 95) = true.
Proof.
  intro Hv. unfold Math_min, isNaN. rewrite Hv.
  change (is_nan 95) with false. change (is_pos_zero 95) with false.
  rewrite andb_false_r. cbv iota zeta.
  destruct (v <? 95) eqn:E; [apply ltb_leb; exact E | reflexivity].
Qed.

Lemma crops_at_most_95 (s : SoilData) :
  (Math_abs (pH_of s) <=? 1e300) = true ->
  Forall at_most_95 (crops_of s).
Proof.
  intro H. apply abs_le_1e300_fin in H.
  assert (is_nan (nitrogen_of s) = false) as Hn
    by (apply or_default_not_nan; reflexivity).
  assert (is_nan (phosphorus_of s) = false) as Hp
    by (apply or_default_not_nan; reflexivity).
  assert (is_nan (potassium_of s) = false) as Hk
    by (apply or_default_not_nan; reflexivity).
  unfold crops_of, generateRecommendations.
  fold (pH_of s) (nitrogen_of s) (phosphorus_of s) (potassium_of s).
  destruct ((6.0 <=? pH_of s) && (pH_of s <=? 7.0) && (0.6 <=? nitrogen_of s));
    destruct (0.7 <=? potassium_of s);
    repeat (apply Forall_cons || apply Forall_nil);
    unfold at_most_95; cbn [suitability];
    apply Math_min_95_number; apply score_not_nan;
    first [assumption | fin_const | finite_const].
Qed.

(** A number between 0 and 14 has magnitude at most 1e300. *)
Lemma range_0_14_abs (x : number) :
  (0 <=? x) = true -> (x <=? 14) = true -> (Math_abs x <=? 1e300) = true.
Proof.
  unfold Math_abs. rewrite !leb_spec, abs_spec.
  replace (Prim2SF 1e300) with (S754_finite false 6724873095247260 944)
    by (vm_compute; reflexivity).
  replace (Prim2SF 14) with (S754_finite false 7881299347898368 (-49))
    by (vm_compute; reflexivity).
  replace (Prim2SF 0) with (S754_zero false) by (vm_compute; reflexivity).
  unfold SFleb, SFcompare.
  destruct (Prim2SF x) as [s | s | | s m e]; cbn [SFabs];
    try destruct s; try discriminate; try reflexivity.
  intros _.
  destruct (Z.compare_spec e (-49)); try discriminate; intros _;
    destruct (Z.compare_spec e 944); try reflexivity; lia.
Qed.

Lemma within_0_14_pH_of (s : SoilData) :
  within 0 14 (pH s) -> (Math_abs (pH_of s) <=? 1e300) = true.
Proof.
  unfold pH_of, or_default. destruct (pH s) as [x | ]; [ | reflexivity].
  intros [H0 [H14 _]]. destruct (ToBoolean x); [ | reflexivity].
  apply range_0_14_abs; assumption.
Qed.

(** ** The claims *)

(** Two distinct numbers are told apart by evaluating [=?]. *)
Ltac float_discriminate H :=
  match type of H with
  | ?a = ?b =>
      apply (f_equal (fun x : number => x =? b)) in H;
      vm_compute in H; discriminate H
  end.

(** *** C1 *)

(** C1, as stated, fails: for pH=9, nitrogen=0, potassium=0 the crop list is
    not a single "Hardy Vegetables" entry with suitability 70. *)
Lemma C1_hardy_vegetables_counterexample :
  ~ (exists c : CropRecommendation,
        crops_of reading_C1 = [c]
        /\ name c = "Hardy Vegetables" /\ suitability c = 70).
Proof.
  intros [c [H _]]. vm_compute in H. discriminate H.
Qed.

(** C1, amended: for pH=9, nitrogen=0, potassium=0 the crop list has exactly
    two entries, Lettuce and Pepper, both with suitability 95 (the zero
    nitrogen and potassium are replaced by the defaults 0.8 and 0.9, and
    Lettuce is added unconditionally); no reading at all yields a
    "Hardy Vegetables" entry, because the list is never empty when the
    fallback is tested. *)
Theorem C1_zero_reading_gives_lettuce_and_pepper :
  crops_of reading_C1 =
    [ {| name := "Lettuce"; suitability := 95;
         expectedYield := "15 tons/hectare" |};
      {| name := "Pepper"; suitability := 95;
         expectedYield := "22 tons/hectare" |} ]
  /\ (forall s : SoilData, ~ In "Hardy Vegetables" (map name (crops_of s)))
  /\ (forall s : SoilData, In "Lettuce" (map name (crops_of s))).
Proof.
  split; [vm_compute; reflexivity | split; intro s; rewrite crop_names].
  - destruct (tomato_ok s), (pepper_ok s); simpl; intuition discriminate.
  - destruct (tomato_ok s), (pepper_ok s); simpl; auto.
Qed.

(** *** C2 *)

(** C2: for every reading, the empty one included, the call is fulfilled
    (never rejected) with a complete result: a crop list of between 1 and 3
    entries, one fertilizer recommendation and one soil-health assessment;
    so the submit handler stores that result and never its fallback. *)
Theorem C2_always_complete_result (s : SoilData) :
  (exists (cs : list CropRecommendation) (fert : FertilizerRecommendation)
          (health : SoilHealth),
      generateRecommendations_async s =
        Fulfilled {| recommendedCrops := cs; fertilizerRecommendation := fert;
                     soilHealth := health |}
      /\ (1 <= List.length cs <= 3)%nat)
  /\ (forall (size : option number) (grown : option string),
        handleSubmit {| soilData := s; farmSize := size; crops := grown |}
        = generateRecommendations s).
Proof.
  split; [ | reflexivity].
  exists (crops_of s),
         (fertilizerRecommendation (generateRecommendations s)),
         (soilHealth (generateRecommendations s)).
  split; [ | apply crops_count].
  unfold generateRecommendations_async, crops_of.
  destruct (generateRecommendations s); reflexivity.
Qed.

(** *** C3 *)

(** C3: an absent pH, nitrogen, phosphorus or potassium is replaced by 6.5,
    0.8, 0.15 or 0.9 before anything else is computed: the result for a
    reading with the field absent is the result for the same reading with
    the field set to that constant. *)
Theorem C3_absent_field_is_the_default (s : SoilData) :
  generateRecommendations (with_pH s None)
    = generateRecommendations (with_pH s (Some 6.5))
  /\ generateRecommendations (with_nitrogen s None)
    = generateRecommendations (with_nitrogen s (Some 0.8))
  /\ generateRecommendations (with_phosphorus s None)
    = generateRecommendations (with_phosphorus s (Some 0.15))
  /\ generateRecommendations (with_potassium s None)
    = generateRecommendations (with_potassium s (Some 0.9)).
Proof.
  split; [ | split; [ | split ] ];
    apply generateRecommendations_ext; reflexivity.
Qed.

(** *** C4 *)

(** C4: with the defaulted pH, the status is "Acidic" exactly when
    pH < 6.0, "Alkaline" exactly when pH > 7.5 and "Good" otherwise; a
    reading with pH 5.5 is "Acidic" and its improvements contain the lime
    advisory, a reading with pH 8.0 is "Alkaline" and its improvements
    contain the sulfur advisory. *)
Theorem C4_soil_status (s : SoilData) :
  (status (soilHealth (generateRecommendations s)) = "Acidic"
     <-> (pH_of s <? 6.0) = true)
  /\ (status (soilHealth (generateRecommendations s)) = "Alkaline"
     <-> (7.5 <? pH_of s) = true)
  /\ (status (soilHealth (generateRecommendations s)) = "Good"
     <-> ((pH_of s <? 6.0) = false /\ (7.5 <? pH_of s) = false))
  /\ (status (soilHealth (generateRecommendations (with_pH s (Some 5.5))))
        = "Acidic"
      /\ In "Apply lime to increase pH"
            (improvements
               (soilHealth (generateRecommendations (with_pH s (Some 5.5))))))
  /\ (status (soilHealth (generateRecommendations (with_pH s (Some 8.0))))
        = "Alkaline"
      /\ In "Apply sulfur to decrease pH"
            (improvements
               (soilHealth (generateRecommendations (with_pH s (Some 8.0)))))).
Proof.
  split; [ | split; [ | split; [ | split; split ] ] ];
    rewrite ?status_spec.
  - split.
    + destruct (pH_of s <? 6.0); [reflexivity | ].
      destruct (7.5 <? pH_of s); intro H; discriminate H.
    + intros ->. reflexivity.
  - split.
    + destruct (pH_of s <? 6.0); [intro H; discriminate H | ].
      destruct (7.5 <? pH_of s); [reflexivity | intro H; discriminate H].
    + intro H. rewrite (above_7_5_not_below_6 _ H), H. reflexivity.
  - split.
    + destruct (pH_of s <? 6.0); [intro H; discriminate H | ].
      destruct (7.5 <? pH_of s); [intro H; discriminate H | split; reflexivity].
    + intros [-> ->]. reflexivity.
  - reflexivity.
  - apply lime_advisory. reflexivity.
  - reflexivity.
  - apply sulfur_advisory; reflexivity.
Qed.

(** *** C5 *)

Lemma npkRatio_spec (s : SoilData) :
  npkRatio (fertilizerRecommendation (generateRecommendations s)) =
  Number_toString (nRatio_of (nitrogen_of s)) ++ "-"
    ++ Number_toString (pRatio_of (phosphorus_of s)) ++ "-"
    ++ Number_toString (kRatio_of (potassium_of s)).
Proof. reflexivity. Qed.

(** C5: with the defaulted readings, each axis of the NPK ratio is 20 below
    the lower threshold, else 15 below the upper threshold, else 10
    (nitrogen 0.5 and 0.8, phosphorus 0.1 and 0.15, potassium 0.7 and 0.9),
    the second test overriding the first, and the three axes are what the
    ratio string shows; a reading with potassium 0.5 has K-ratio 20 and no
    Pepper entry. *)
Theorem C5_npk_axes (s : SoilData) :
  nRatio_of (nitrogen_of s) =
    (if nitrogen_of s <? 0.5 then 20
     else if nitrogen_of s <? 0.8 then 15 else 10)
  /\ pRatio_of (phosphorus_of s) =
    (if phosphorus_of s <? 0.1 then 20
     else if phosphorus_of s <? 0.15 then 15 else 10)
  /\ kRatio_of (potassium_of s) =
    (if potassium_of s <? 0.7 then 20
     else if potassium_of s <? 0.9 then 15 else 10)
  /\ npkRatio (fertilizerRecommendation (generateRecommendations s)) =
       Number_toString (nRatio_of (nitrogen_of s)) ++ "-"
         ++ Number_toString (pRatio_of (phosphorus_of s)) ++ "-"
         ++ Number_toString (kRatio_of (potassium_of s))
  /\ kRatio_of (potassium_of (with_potassium s (Some 0.5))) = 20
  /\ npkRatio (fertilizerRecommendation
                 (generateRecommendations (with_potassium s (Some 0.5)))) =
       Number_toString (nRatio_of (nitrogen_of s)) ++ "-"
         ++ Number_toString (pRatio_of (phosphorus_of s)) ++ "-20"
  /\ ~ In "Pepper" (map name (crops_of (with_potassium s (Some 0.5)))).
Proof.
  split; [ | split; [ | split; [ | split; [ | split; [ | split ] ] ] ] ].
  - unfold nRatio_of.
    destruct (nitrogen_of s <? 0.5), (nitrogen_of s <? 0.8); reflexivity.
  - unfold pRatio_of.
    destruct (phosphorus_of s <? 0.1), (phosphorus_of s <? 0.15); reflexivity.
  - unfold kRatio_of.
    destruct (potassium_of s <? 0.7), (potassium_of s <? 0.9); reflexivity.
  - apply npkRatio_spec.
  - reflexivity.
  - rewrite npkRatio_spec. reflexivity.
  - rewrite crop_names.
    change (pepper_ok (with_potassium s (Some 0.5))) with false.
    destruct (tomato_ok _); simpl; intuition discriminate.
Qed.

(** *** C6 *)

(** C6: for an empty reading (no pH, nitrogen, phosphorus or potassium) the
    fertilizer recommendation has ratio "10-10-10", quantity
    "240 kg/hectare" and estimated cost "$175". *)
Theorem C6_empty_reading_fertilizer (loc : option string) :
  fertilizerRecommendation
    (generateRecommendations
       {| pH := None; nitrogen := None; phosphorus := None;
          potassium := None; location := loc |})
  = {| npkRatio := "10-10-10"; quantity := "240 kg/hectare";
       estimatedCost := "$175" |}.
Proof. vm_compute. reflexivity. Qed.

(** *** C7 *)

(** C7, as stated, fails: for the empty reading no Lettuce entry has a
    suitability within 1 of 93. *)
Lemma C7_lettuce_not_near_93_counterexample :
  ~ (exists c : CropRecommendation,
        In c (crops_of emptySoilData)
        /\ name c = "Lettuce"
        /\ (92 <=? suitability c) && (suitability c <=? 94) = true).
Proof.
  intros [c [Hin [Hname Hs]]]. vm_compute in Hin.
  destruct Hin as [<- | [<- | [<- | []]]]; vm_compute in Hs; discriminate Hs.
Qed.

(** C7, amended: for the empty reading the list has one Lettuce entry and
    its suitability is min(95, 70 + 0.15*100 + 3*(8 - |6.5 - 6.8|)), which
    is exactly 95: the sum under the cap is above 108. *)
Theorem C7_empty_reading_lettuce_is_95 :
  filter (has_name "Lettuce") (crops_of emptySoilData) =
    [ {| name := "Lettuce"; suitability := 95;
         expectedYield := "15 tons/hectare" |} ]
  /\ Math_min 95 (70 + (0.15 * 100) + (8 - Math_abs (6.5 - 6.8)) * 3) = 95
  /\ (108 <? 70 + (0.15 * 100) + (8 - Math_abs (6.5 - 6.8)) * 3) = true.
Proof. vm_compute. repeat split. Qed.

(** *** C8 *)

(** C8, as stated, fails: for nitrogen=0.9, pH=6.5 no Tomato entry has
    suitability 92. *)
Lemma C8_tomato_not_92_counterexample :
  ~ (exists c : CropRecommendation,
        In c (crops_of reading_C8)
        /\ name c = "Tomato" /\ suitability c = 92).
Proof.
  intros [c [Hin [Hname Hs]]]. vm_compute in Hin.
  destruct Hin as [<- | [<- | [<- | []]]]; simpl in Hs; float_discriminate Hs.
Qed.

(** C8, amended: for nitrogen=0.9, pH=6.5 the list has one Tomato entry and
    its suitability is min(95, 60 + 0.9*30 + (7 - |6.5 - 6.5|)*5), which is
    exactly 95: the sum under the cap is 60 + 27 + 35 = 122. *)
Theorem C8_tomato_is_95 :
  filter (has_name "Tomato") (crops_of reading_C8) =
    [ {| name := "Tomato"; suitability := 95;
         expectedYield := "29 tons/hectare" |} ]
  /\ Math_min 95 (60 + (0.9 * 30) + (7 - Math_abs (6.5 - 6.5)) * 5) = 95
  /\ 60 + (0.9 * 30) + (7 - Math_abs (6.5 - 6.5)) * 5 = 122.
Proof. vm_compute. repeat split. Qed.

(** *** C9 *)

(** C9: a pH, nitrogen, phosphorus or potassium equal to zero is treated as
    missing: the result is the one for the same reading with the field
    absent. *)
Theorem C9_zero_is_missing (s : SoilData) (x : number) :
  (x =? 0) = true ->
  generateRecommendations (with_pH s (Some x))
    = generateRecommendations (with_pH s None)
  /\ generateRecommendations (with_nitrogen s (Some x))
    = generateRecommendations (with_nitrogen s None)
  /\ generateRecommendations (with_phosphorus s (Some x))
    = generateRecommendations (with_phosphorus s None)
  /\ generateRecommendations (with_potassium s (Some x))
    = generateRecommendations (with_potassium s None).
Proof.
  intro Hx.
  split; [ | split; [ | split ] ];
    apply generateRecommendations_ext; try reflexivity;
    unfold pH_of, nitrogen_of, phosphorus_of, potassium_of; simpl;
    apply or_default_zero; exact Hx.
Qed.

Lemma C9_zero_is_missing_witness :
  (0 =? 0) = true
  /\ (generateRecommendations (with_pH emptySoilData (Some 0))
        = generateRecommendations (with_pH emptySoilData None)
      /\ generateRecommendations (with_nitrogen emptySoilData (Some 0))
        = generateRecommendations (with_nitrogen emptySoilData None)
      /\ generateRecommendations (with_phosphorus emptySoilData (Some 0))
        = generateRecommendations (with_phosphorus emptySoilData None)
      /\ generateRecommendations (with_potassium emptySoilData (Some 0))
        = generateRecommendations (with_potassium emptySoilData None)).
Proof.
  split; [reflexivity | apply (C9_zero_is_missing emptySoilData 0); reflexivity].
Defined.

(** *** C10 *)

(** Outside the readings the page lets through the cap does not help: for
    pH=1e308 and phosphorus=1e307 the Lettuce sum is
    (+infinity) + (-infinity), and [Math.min] returns NaN. *)
Lemma overflowing_reading_has_no_bound :
  ~ Forall at_most_95 (crops_of reading_overflow).
Proof.
  intro H. vm_compute in H.
  inversion H as [ | c l Hc Hl]. discriminate Hc.
Qed.

(** C10: for every reading whose pH is absent or between 0 and 14 (the
    readings of the data model: the form field has min 0 and max 14, the
    parser and the validator keep a pH only in that range), every crop
    entry the calculator returns, and so every entry the submit handler
    stores, has a suitability of at most 95; the entry of the handler's
    fallback result has the fixed suitability 75. *)
Theorem C10_suitability_at_most_95 (formData : FormData) :
  within 0 14 (pH (soilData formData)) ->
  Forall at_most_95 (crops_of (soilData formData))
  /\ Forall at_most_95 (recommendedCrops (handleSubmit formData))
  /\ Forall at_most_95 (recommendedCrops fallbackResults)
  /\ map suitability (recommendedCrops fallbackResults) = [75].
Proof.
  intro H.
  assert (Forall at_most_95 (crops_of (soilData formData))) as A
    by (apply crops_at_most_95; apply within_0_14_pH_of; exact H).
  split; [exact A | split; [ | split ] ].
  - rewrite handleSubmit_spec. exact A.
  - repeat constructor.
  - reflexivity.
Qed.

Lemma C10_suitability_at_most_95_witness :
  within 0 14 (pH (soilData (form_of reading_C8)))
  /\ Forall at_most_95 (crops_of (soilData (form_of reading_C8)))
  /\ Forall at_most_95 (recommendedCrops (handleSubmit (form_of reading_C8))).
Proof.
  assert (within 0 14 (pH (soilData (form_of reading_C8)))) as H
    by (repeat split; reflexivity).
  split; [exact H | ].
  pose proof (C10_suitability_at_most_95 (form_of reading_C8) H) as T.
  split; [exact (proj1 T) | exact (proj1 (proj2 T))].
Defined.

(** * Further properties *)

(** ** More on the order of binary64 *)

Section MoreFloatOrder.

Lemma SFltb_not_SFleb (a b : spec_float) :
  SFltb a b = true -> SFleb b a = false.
Proof.
  unfold SFltb, SFleb, SFcompare.
  destruct a as [sa | sa | | sa ma ea], b as [sb | sb | | sb mb eb];
    try destruct sa; try destruct sb; try discriminate; try reflexivity.
  all: rewrite ?Pos.compare_cont_spec; simpl.
  all: rewrite (Z.compare_antisym ea eb); destruct (ea ?= eb)%Z; simpl;
    try discriminate; try reflexivity.
  all: rewrite (Pos.compare_antisym ma mb); destruct (ma ?= mb)%positive; simpl;
    try discriminate; try reflexivity.
Qed.

Lemma SFleb_SFltb_trans (a b c : spec_float) :
  SFleb a b = true -> SFltb b c = true -> SFltb a c = true.
Proof.
  unfold SFltb, SFleb, SFcompare.
  destruct a as [sa | sa | | sa ma ea], b as [sb | sb | | sb mb eb],
           c as [sc | sc | | sc mc ec];
    try destruct sa; try destruct sb; try destruct sc;
    try discriminate; try reflexivity.
  all: rewrite ?Pos.compare_cont_spec; simpl.
  all: destruct (Z.compare_spec ea eb), (Z.compare_spec eb ec),
                (Z.compare_spec ea ec);
    try discriminate; try reflexivity; try lia; subst.
  all: rewrite ?Pos.compare_cont_spec; simpl.
  all: destruct (Pos.compare_spec ma mb), (Pos.compare_spec mb mc),
                (Pos.compare_spec ma mc);
    simpl; try discriminate; try reflexivity; try lia.
Qed.

Lemma ltb_not_leb (x y : number) : (x <? y) = true -> (y <=? x) = false.
Proof. rewrite ltb_spec, leb_spec. apply SFltb_not_SFleb. Qed.

Lemma leb_ltb_trans (x y z : number) :
  (x <=? y) = true -> (y <? z) = true -> (x <? z) = true.
Proof. rewrite leb_spec, !ltb_spec. apply SFleb_SFltb_trans. Qed.

Lemma leb_not_nan_l (x y : number) : (x <=? y) = true -> is_nan x = false.
Proof.
  rewrite leb_spec, is_nan_spec. unfold SFleb, SFcompare.
  destruct (Prim2SF x); try reflexivity. discriminate.
Qed.

Lemma leb_not_nan_r (x y : number) : (x <=? y) = true -> is_nan y = false.
Proof.
  rewrite leb_spec, is_nan_spec. unfold SFleb, SFcompare.
  destruct (Prim2SF x), (Prim2SF y); try reflexivity; discriminate.
Qed.

End MoreFloatOrder.

Lemma SFleb_total (a b : spec_float) :
  a <> S754_nan -> b <> S754_nan -> SFleb b a = false -> SFltb a b = true.
Proof.
  unfold SFltb, SFleb, SFcompare. intros Ha Hb.
  destruct a as [sa | sa | | sa ma ea], b as [sb | sb | | sb mb eb];
    try congruence;
    try destruct sa; try destruct sb; try discriminate; try reflexivity.
  all: rewrite ?Pos.compare_cont_spec; simpl.
  all: rewrite (Z.compare_antisym ea eb); destruct (ea ?= eb)%Z; simpl;
    try discriminate; try reflexivity.
  all: rewrite (Pos.compare_antisym ma mb); destruct (ma ?= mb)%positive; simpl;
    try discriminate; try reflexivity.
Qed.

Lemma not_leb_ltb (x y : number) :
  is_nan x = false -> is_nan y = false ->
  (y <=? x) = false -> (x <? y) = true.
Proof.
  rewrite !is_nan_spec, leb_spec, ltb_spec. intros Hx Hy.
  apply SFleb_total.
  - intro E. rewrite E in Hx. discriminate Hx.
  - intro E. rewrite E in Hy. discriminate Hy.
Qed.

Lemma ltb_asym (x y : number) : (x <? y) = true -> (y <? x) = false.
Proof.
  intro H. destruct (y <? x) eqn:E; [ | reflexivity].
  apply ltb_leb in E. rewrite (ltb_not_leb _ _ H) in E. discriminate E.
Qed.

(** ** The advisories *)

Lemma improvements_spec (s : SoilData) :
  improvements_of s =
  match advisories s with
  | [] => ["Maintain current nutrient balance";
           "Regular soil testing recommended"]
  | l => l
  end.
Proof.
  unfold improvements_of, advisories, generateRecommendations.
  fold (pH_of s) (nitrogen_of s) (phosphorus_of s) (potassium_of s).
  destruct (pH_of s <? 6.0); [ | destruct (7.5 <? pH_of s)];
    destruct (nitrogen_of s <? 0.5), (phosphorus_of s <? 0.1),
             (potassium_of s <? 0.8); reflexivity.
Qed.

Ltac string_in :=
  simpl; intuition (try discriminate; try congruence).

(** X1: the list of improvements is never empty and has at most four
    entries; it is the pair of maintenance messages exactly when no
    threshold is crossed, and neither message appears otherwise. *)
Theorem improvements_never_empty (s : SoilData) :
  (1 <= List.length (improvements_of s) <= 4)%nat
  /\ (improvements_of s = ["Maintain current nutrient balance";
                           "Regular soil testing recommended"]
      <-> no_advisory s = true)
  /\ (In "Maintain current nutrient balance" (improvements_of s)
      <-> no_advisory s = true)
  /\ (In "Regular soil testing recommended" (improvements_of s)
      <-> no_advisory s = true).
Proof.
  rewrite improvements_spec. unfold advisories, no_advisory.
  destruct (pH_of s <? 6.0); [ | destruct (7.5 <? pH_of s)];
    destruct (nitrogen_of s <? 0.5), (phosphorus_of s <? 0.1),
             (potassium_of s <? 0.8);
    (split; [simpl; lia | ]); string_in.
Qed.

(** The three nutrient advisories and their tests. *)
Lemma nutrient_advisory_membership (s : SoilData) :
  (In "Increase nitrogen with organic compost" (improvements_of s)
     <-> (nitrogen_of s <? 0.5) = true)
  /\ (In "Add phosphate fertilizer" (improvements_of s)
     <-> (phosphorus_of s <? 0.1) = true)
  /\ (In "Apply potassium-rich fertilizer" (improvements_of s)
     <-> (potassium_of s <? 0.8) = true).
Proof.
  rewrite improvements_spec. unfold advisories.
  destruct (pH_of s <? 6.0); [ | destruct (7.5 <? pH_of s)];
    destruct (nitrogen_of s <? 0.5), (phosphorus_of s <? 0.1),
             (potassium_of s <? 0.8); string_in.
Qed.

(** X2: each advisory is in the list exactly when its own test holds on
    the defaulted reading: lime for pH < 6.0, sulfur for pH > 7.5, compost
    for nitrogen < 0.5, phosphate for phosphorus < 0.1, potassium for
    potassium < 0.8. *)
Theorem advisory_iff_threshold (s : SoilData) :
  (In "Apply lime to increase pH" (improvements_of s)
     <-> (pH_of s <? 6.0) = true)
  /\ (In "Apply sulfur to decrease pH" (improvements_of s)
     <-> (7.5 <? pH_of s) = true)
  /\ (In "Increase nitrogen with organic compost" (improvements_of s)
     <-> (nitrogen_of s <? 0.5) = true)
  /\ (In "Add phosphate fertilizer" (improvements_of s)
     <-> (phosphorus_of s <? 0.1) = true)
  /\ (In "Apply potassium-rich fertilizer" (improvements_of s)
     <-> (potassium_of s <? 0.8) = true).
Proof.
  rewrite improvements_spec. unfold advisories.
  destruct (7.5 <? pH_of s) eqn:H75.
  - rewrite (above_7_5_not_below_6 _ H75).
    destruct (nitrogen_of s <? 0.5), (phosphorus_of s <? 0.1),
             (potassium_of s <? 0.8); string_in.
  - destruct (pH_of s <? 6.0);
    destruct (nitrogen_of s <? 0.5), (phosphorus_of s <? 0.1),
             (potassium_of s <? 0.8); string_in.
Qed.

(** ** Crops, status and ratios *)

Lemma nutrients_not_nan (s : SoilData) :
  is_nan (pH_of s) = false /\ is_nan (nitrogen_of s) = false
  /\ is_nan (phosphorus_of s) = false /\ is_nan (potassium_of s) = false.
Proof. repeat split; apply or_default_not_nan; reflexivity. Qed.

(** X3: an advisory about a nutrient comes with an escalated axis of the
    ratio: 20 for nitrogen and for phosphorus, 15 or 20 for potassium. *)
Theorem advisory_escalates_ratio (s : SoilData) :
  (In "Increase nitrogen with organic compost" (improvements_of s) ->
   nRatio_of (nitrogen_of s) = 20)
  /\ (In "Add phosphate fertilizer" (improvements_of s) ->
      pRatio_of (phosphorus_of s) = 20)
  /\ (In "Apply potassium-rich fertilizer" (improvements_of s) ->
      kRatio_of (potassium_of s) = 15 \/ kRatio_of (potassium_of s) = 20).
Proof.
  destruct (nutrient_advisory_membership s) as [Hn [Hp Hk]].
  split; [ | split].
  - intro H. apply Hn in H. unfold nRatio_of. rewrite H. reflexivity.
  - intro H. apply Hp in H. unfold pRatio_of. rewrite H. reflexivity.
  - intro H. apply Hk in H.
    assert ((potassium_of s <? 0.9) = true) as H9
      by (apply (ltb_trans _ 0.8); [exact H | reflexivity]).
    unfold kRatio_of. rewrite H9.
    destruct (potassium_of s <? 0.7); auto.
Qed.

Lemma advisory_escalates_ratio_witness :
  nRatio_of (nitrogen_of reading_poor) = 20
  /\ pRatio_of (phosphorus_of reading_poor) = 20
  /\ (kRatio_of (potassium_of reading_poor) = 15
      \/ kRatio_of (potassium_of reading_poor) = 20).
Proof.
  destruct (advisory_escalates_ratio reading_poor) as [Hn [Hp Hk]].
  split; [ | split].
  - apply Hn. vm_compute. auto.
  - apply Hp. vm_compute. auto.
  - apply Hk. vm_compute. auto.
Defined.

(** X4: Tomato is recommended only when the soil status is "Good". *)
Theorem tomato_only_on_good_soil (s : SoilData) :
  In "Tomato" (map name (crops_of s)) ->
  status (soilHealth (generateRecommendations s)) = "Good".
Proof.
  rewrite crop_names, status_spec. unfold tomato_ok.
  destruct (6.0 <=? pH_of s) eqn:H6; simpl.
  - destruct (pH_of s <=? 7.0) eqn:H7; simpl.
    + intros _.
      destruct (pH_of s <? 6.0) eqn:L6.
      { apply ltb_not_leb in L6. congruence. }
      destruct (7.5 <? pH_of s) eqn:L75; [ | reflexivity].
      assert ((pH_of s <? 7.5) = true) as C
        by (apply (leb_ltb_trans _ 7.0); [exact H7 | reflexivity]).
      apply ltb_asym in C. congruence.
    + destruct (pepper_ok s); string_in.
  - destruct (pepper_ok s); string_in.
Qed.

Lemma tomato_only_on_good_soil_witness :
  In "Tomato" (map name (crops_of emptySoilData))
  /\ status (soilHealth (generateRecommendations emptySoilData)) = "Good".
Proof.
  split; [vm_compute; auto | ].
  apply (tomato_only_on_good_soil emptySoilData). vm_compute. auto.
Defined.

(** X5: Pepper is recommended exactly when the K axis of the ratio is not
    20, that is when potassium >= 0.7; Tomato exactly when 6.0 <= pH <= 7.0
    and nitrogen >= 0.6. *)
Theorem pepper_iff_K_axis_below_20 (s : SoilData) :
  (In "Pepper" (map name (crops_of s))
   <-> kRatio_of (potassium_of s) <> 20)
  /\ (In "Pepper" (map name (crops_of s)) <-> (0.7 <=? potassium_of s) = true)
  /\ (In "Tomato" (map name (crops_of s)) <-> tomato_ok s = true).
Proof.
  rewrite crop_names. unfold pepper_ok.
  destruct (nutrients_not_nan s) as [_ [_ [_ Hk]]].
  split; [ | split].
  - destruct (0.7 <=? potassium_of s) eqn:G.
    + assert ((potassium_of s <? 0.7) = false) as L.
      { destruct (potassium_of s <? 0.7) eqn:L; [ | reflexivity].
        apply ltb_not_leb in L. congruence. }
      unfold kRatio_of. rewrite L.
      split; [intros _ | intros _; destruct (tomato_ok s); simpl; auto].
      destruct (potassium_of s <? 0.9); intro E; float_discriminate E.
    + apply not_leb_ltb in G; [ | exact Hk | reflexivity].
      unfold kRatio_of. rewrite G.
      split; [ | intro E; exfalso; apply E; reflexivity].
      destruct (tomato_ok s); string_in.
  - destruct (0.7 <=? potassium_of s), (tomato_ok s); string_in.
  - destruct (0.7 <=? potassium_of s), (tomato_ok s); string_in.
Qed.

(** X6: the crop list is Lettuce, with at most Tomato before it and at
    most Pepper after it: the order is fixed and no name occurs twice. *)
Theorem crops_in_fixed_order (s : SoilData) :
  exists before after : list string,
    map name (crops_of s) = (before ++ "Lettuce" :: after)%list
    /\ (before = [] \/ before = ["Tomato"])
    /\ (after = [] \/ after = ["Pepper"])
    /\ NoDup (map name (crops_of s)).
Proof.
  rewrite crop_names.
  exists (if tomato_ok s then ["Tomato"] else []),
         (if pepper_ok s then ["Pepper"] else []).
  destruct (tomato_ok s), (pepper_ok s); repeat split; auto;
    repeat (constructor; [string_in | ]); constructor.
Qed.

(** The generic escalation of an axis. *)
Lemma axis_antitone (lo hi x y : number) :
  (lo <? hi) = true ->
  (x <=? y) = true ->
  ((let r := 10 in
    let r := if y <? hi then 15 else r in
    let r := if y <? lo then 20 else r in r)
   <=?
   (let r := 10 in
    let r := if x <? hi then 15 else r in
    let r := if x <? lo then 20 else r in r)) = true.
Proof.
  intros Hlh Hxy. cbv zeta.
  destruct (y <? lo) eqn:Yl.
  - rewrite (leb_ltb_trans _ _ _ Hxy Yl). reflexivity.
  - destruct (y <? hi) eqn:Yh.
    + rewrite (leb_ltb_trans _ _ _ Hxy Yh).
      destruct (x <? lo); reflexivity.
    + destruct (x <? lo), (x <? hi); reflexivity.
Qed.

(** X7: each axis of the ratio is antitone in the nutrient value the
    calculator works with, that is the value after the defaults (a missing
    or zero entry counts as its default): a reading whose defaulted
    nutrient is smaller never gets a smaller axis. *)
Theorem ratios_antitone (s1 s2 : SoilData) :
  ((nitrogen_of s1 <=? nitrogen_of s2) = true ->
   (nRatio_of (nitrogen_of s2) <=? nRatio_of (nitrogen_of s1)) = true)
  /\ ((phosphorus_of s1 <=? phosphorus_of s2) = true ->
      (pRatio_of (phosphorus_of s2) <=? pRatio_of (phosphorus_of s1)) = true)
  /\ ((potassium_of s1 <=? potassium_of s2) = true ->
      (kRatio_of (potassium_of s2) <=? kRatio_of (potassium_of s1)) = true).
Proof.
  split; [ | split]; intro H.
  - apply (axis_antitone 0.5 0.8); [reflexivity | exact H].
  - apply (axis_antitone 0.1 0.15); [reflexivity | exact H].
  - apply (axis_antitone 0.7 0.9); [reflexivity | exact H].
Qed.

(** The zero nitrogen and potassium of [reading_C1] count as 0.8 and 0.9,
    above the 0.3 and 0.75 of [reading_poor]. *)
Lemma ratios_antitone_witness :
  ((nitrogen_of reading_poor <=? nitrogen_of reading_C1) = true
   /\ (nRatio_of (nitrogen_of reading_C1)
       <=? nRatio_of (nitrogen_of reading_poor)) = true)
  /\ ((phosphorus_of reading_poor <=? phosphorus_of reading_C1) = true
      /\ (pRatio_of (phosphorus_of reading_C1)
          <=? pRatio_of (phosphorus_of reading_poor)) = true)
  /\ ((potassium_of reading_poor <=? potassium_of reading_C1) = true
      /\ (kRatio_of (potassium_of reading_C1)
          <=? kRatio_of (potassium_of reading_poor)) = true).
Proof.
  destruct (ratios_antitone reading_poor reading_C1) as [Hn [Hp Hk]].
  split; [ | split]; (split; [reflexivity | ]).
  - apply Hn. reflexivity.
  - apply Hp. reflexivity.
  - apply Hk. reflexivity.
Defined.

Lemma nRatio_values (x : number) : In (nRatio_of x) [10; 15; 20].
Proof. unfold nRatio_of. destruct (x <? 0.5), (x <? 0.8); simpl; auto. Qed.
Lemma pRatio_values (x : number) : In (pRatio_of x) [10; 15; 20].
Proof. unfold pRatio_of. destruct (x <? 0.1), (x <? 0.15); simpl; auto. Qed.
Lemma kRatio_values (x : number) : In (kRatio_of x) [10; 15; 20].
Proof. unfold kRatio_of. destruct (x <? 0.7), (x <? 0.9); simpl; auto. Qed.

Lemma fertilizer_spec (s : SoilData) :
  fertilizerRecommendation (generateRecommendations s) =
  let t := nRatio_of (nitrogen_of s) + pRatio_of (phosphorus_of s)
           + kRatio_of (potassium_of s) in
  {| npkRatio := Number_toString (nRatio_of (nitrogen_of s)) ++ "-"
        ++ Number_toString (pRatio_of (phosphorus_of s)) ++ "-"
        ++ Number_toString (kRatio_of (potassium_of s));
     quantity := Number_toString (Math_round (150 + t * 3)) ++ " kg/hectare";
     estimatedCost := "$" ++ Number_toString (Math_round (t * 2.5 + 100)) |}.
Proof. reflexivity. Qed.

(** X8: the fertilizer recommendation in integers: the axes n, p, k are
    among 10, 15 and 20, the ratio shows them, the quantity is
    150 + 3 (n + p + k) kg/hectare and the cost is 2.5 (n + p + k) + 100
    dollars rounded half up; so between 240 and 330 kg and between $175 and
    $250. *)
Theorem fertilizer_in_integers (s : SoilData) :
  exists n p k : Z,
    In n [10; 15; 20]%Z /\ In p [10; 15; 20]%Z /\ In k [10; 15; 20]%Z
    /\ fertilizerRecommendation (generateRecommendations s) =
       {| npkRatio := decimal n ++ "-" ++ decimal p ++ "-" ++ decimal k;
          quantity := decimal (150 + 3 * (n + p + k)) ++ " kg/hectare";
          estimatedCost := "$" ++ decimal ((5 * (n + p + k) + 201) / 2) |}.
Proof.
  rewrite fertilizer_spec.
  pose proof (nRatio_values (nitrogen_of s)) as Hn.
  pose proof (pRatio_values (phosphorus_of s)) as Hp.
  pose proof (kRatio_values (potassium_of s)) as Hk.
  destruct Hn as [<- | [<- | [<- | []]]];
    [exists 10%Z | exists 15%Z | exists 20%Z];
  (destruct Hp as [<- | [<- | [<- | []]]];
    [exists 10%Z | exists 15%Z | exists 20%Z]);
  (destruct Hk as [<- | [<- | [<- | []]]];
    [exists 10%Z | exists 15%Z | exists 20%Z]);
  (split; [simpl; auto | split; [simpl; auto | split; [simpl; auto | ]]]);
  vm_compute; reflexivity.
Qed.

(** ** Validation of a reading *)

Lemma within_intro (lo hi x : number) :
  (lo <=? x) && (x <=? hi) = true -> within lo hi (Some x).
Proof.
  intro H. apply andb_prop in H. destruct H as [H1 H2].
  repeat split; trivial. exact (leb_not_nan_l _ _ H2).
Qed.

Lemma validateSoilData_spec (s : SoilData) :
  validateSoilData s =
  {| pH := keep 0 14 (pH s);
     nitrogen := keep 0 10 (nitrogen s);
     phosphorus := keep 0 5 (phosphorus s);
     potassium := keep 0 8 (potassium s);
     location := if truthy_string (location s) then location s else None |}.
Proof.
  destruct s as [a b c d l]. unfold validateSoilData, keep.
  cbn [pH nitrogen phosphorus potassium location].
  destruct a as [a | ]; [destruct ((0 <=? a) && (a <=? 14)) | ];
  (destruct b as [b | ]; [destruct ((0 <=? b) && (b <=? 10)) | ]);
  (destruct c as [c | ]; [destruct ((0 <=? c) && (c <=? 5)) | ]);
  (destruct d as [d | ]; [destruct ((0 <=? d) && (d <=? 8)) | ]);
  destruct (truthy_string l); reflexivity.
Qed.

Lemma keep_keep (lo hi : number) (v : option number) :
  keep lo hi (keep lo hi v) = keep lo hi v.
Proof.
  unfold keep. destruct v as [x | ]; [ | reflexivity].
  destruct ((lo <=? x) && (x <=? hi)) eqn:E; [rewrite E | ]; reflexivity.
Qed.

Lemma keep_within (lo hi : number) (v : option number) :
  within lo hi (keep lo hi v).
Proof.
  unfold keep. destruct v as [x | ]; [ | exact I].
  destruct ((lo <=? x) && (x <=? hi)) eqn:E; [ | exact I].
  apply within_intro. exact E.
Qed.

Lemma keep_dropped_or_kept (lo hi : number) (v : option number) :
  dropped_or_kept (keep lo hi v) v.
Proof.
  unfold keep, dropped_or_kept. destruct v as [x | ]; auto.
  destruct ((lo <=? x) && (x <=? hi)); auto.
Qed.

(** X9: validating twice is validating once. *)
Theorem validateSoilData_idempotent (s : SoilData) :
  validateSoilData (validateSoilData s) = validateSoilData s.
Proof.
  rewrite (validateSoilData_spec (validateSoilData s)).
  rewrite !validateSoilData_spec.
  cbn [pH nitrogen phosphorus potassium location].
  rewrite !keep_keep. f_equal.
  destruct (truthy_string (location s)) eqn:E; [rewrite E | ]; reflexivity.
Qed.

(** X10: a validated reading holds only numbers within the ranges
    (pH 0-14, nitrogen 0-10, phosphorus 0-5, potassium 0-8, never NaN) and
    no empty location; validation never changes a value, it only drops
    fields. *)
Theorem validateSoilData_in_range (s : SoilData) :
  within 0 14 (pH (validateSoilData s))
  /\ within 0 10 (nitrogen (validateSoilData s))
  /\ within 0 5 (phosphorus (validateSoilData s))
  /\ within 0 8 (potassium (validateSoilData s))
  /\ location (validateSoilData s) <> Some ""
  /\ dropped_or_kept (pH (validateSoilData s)) (pH s)
  /\ dropped_or_kept (nitrogen (validateSoilData s)) (nitrogen s)
  /\ dropped_or_kept (phosphorus (validateSoilData s)) (phosphorus s)
  /\ dropped_or_kept (potassium (validateSoilData s)) (potassium s)
  /\ dropped_or_kept (location (validateSoilData s)) (location s).
Proof.
  rewrite validateSoilData_spec.
  cbn [pH nitrogen phosphorus potassium location].
  repeat (split; [first [apply keep_within | apply keep_dropped_or_kept | idtac] | ]).
  - destruct (location s) as [l | ]; cbn [truthy_string]; [ | discriminate].
    destruct (String.eqb_spec l ""); cbn [negb]; [discriminate | congruence].
  - unfold dropped_or_kept. destruct (truthy_string (location s)); auto.
Qed.

(** X11: on a validated reading every suitability is at most 95 (none is
    NaN). *)
Theorem validated_scores_at_most_95 (s : SoilData) :
  Forall at_most_95 (crops_of (validateSoilData s)).
Proof.
  apply crops_at_most_95. apply within_0_14_pH_of.
  rewrite validateSoilData_spec. cbn [pH]. apply keep_within.
Qed.

(** ** Readings from an image *)

Section ImageProperties.

Context {runtime : Runtime}.

Lemma keep_fix (lo hi : number) (v : option number) :
  within lo hi v -> keep lo hi v = v.
Proof.
  unfold keep, within. destruct v as [x | ]; [ | reflexivity].
  intros [H1 [H2 _]]. rewrite H1, H2. reflexivity.
Qed.

Lemma scan_patterns_within (lo hi : number) (lowerText : string)
    (patterns : list RegExp) (current : option number) :
  within lo hi current ->
  within lo hi (scan_patterns lo hi lowerText patterns current).
Proof.
  intro H. induction patterns as [ | pattern rest IH]; simpl; [exact H | ].
  destruct (String_match lowerText pattern) as [m | ]; [ | exact IH].
  destruct (falsy_number current); [ | exact IH].
  destruct ((lo <=? parseFloat_at m 1) && (parseFloat_at m 1 <=? hi)) eqn:E;
    [ | exact IH].
  apply within_intro. exact E.
Qed.

Lemma parse_fields (text : string) :
  within 0 14 (pH (parseSoilDataFromText text))
  /\ within 0 10 (nitrogen (parseSoilDataFromText text))
  /\ within 0 5 (phosphorus (parseSoilDataFromText text))
  /\ within 0 8 (potassium (parseSoilDataFromText text))
  /\ location (parseSoilDataFromText text) = None.
Proof.
  unfold parseSoilDataFromText.
  destruct (String.eqb text ""); cbn [pH nitrogen phosphorus potassium location
    with_pH with_nitrogen with_phosphorus with_potassium emptySoilData];
    repeat split; try apply scan_patterns_within; exact I.
Qed.

Lemma in_range_validated (s : SoilData) :
  within 0 14 (pH s) -> within 0 10 (nitrogen s) ->
  within 0 5 (phosphorus s) -> within 0 8 (potassium s) ->
  location s = None ->
  validateSoilData s = s.
Proof.
  intros Ha Hb Hc Hd Hl. rewrite validateSoilData_spec.
  rewrite !keep_fix by assumption. rewrite Hl. cbn [truthy_string].
  destruct s; cbn in *. congruence.
Qed.

(** X12: whatever the text and the runtime, the parsed reading has no
    location and only numbers within the ranges, so validation leaves it
    unchanged; the empty text gives the empty reading. *)
Theorem parseSoilDataFromText_in_range (text : string) :
  parseSoilDataFromText "" = emptySoilData
  /\ within 0 14 (pH (parseSoilDataFromText text))
  /\ within 0 10 (nitrogen (parseSoilDataFromText text))
  /\ within 0 5 (phosphorus (parseSoilDataFromText text))
  /\ within 0 8 (potassium (parseSoilDataFromText text))
  /\ location (parseSoilDataFromText text) = None
  /\ validateSoilData (parseSoilDataFromText text)
     = parseSoilDataFromText text.
Proof.
  destruct (parse_fields text) as [Ha [Hb [Hc [Hd Hl]]]].
  repeat split; trivial.
  apply in_range_validated; assumption.
Qed.

Lemma analyze_fields (extracted : completion string) :
  within 0 14 (pH (analyzeImageForSoilData extracted))
  /\ within 0 10 (nitrogen (analyzeImageForSoilData extracted))
  /\ within 0 5 (phosphorus (analyzeImageForSoilData extracted))
  /\ within 0 8 (potassium (analyzeImageForSoilData extracted))
  /\ location (analyzeImageForSoilData extracted) = None.
Proof.
  assert (within 0 14 (pH defaultSoilData)
          /\ within 0 10 (nitrogen defaultSoilData)
          /\ within 0 5 (phosphorus defaultSoilData)
          /\ within 0 8 (potassium defaultSoilData)
          /\ location defaultSoilData = None) as D
    by (repeat split; reflexivity).
  unfold analyzeImageForSoilData.
  destruct extracted as [text | reason]; [ | exact D].
  destruct (keys_length (parseSoilDataFromText text) =? 0)%nat;
    [exact D | apply parse_fields].
Qed.

Lemma analyzed_has_key (extracted : completion string) :
  (1 <= keys_length (analyzeImageForSoilData extracted))%nat.
Proof.
  unfold analyzeImageForSoilData.
  destruct extracted as [text | reason]; [ | cbn; lia].
  destruct (keys_length (parseSoilDataFromText text)) eqn:K; cbn; lia.
Qed.

(** X13: the analysis of an image never returns an empty reading.  When
    the calls fail, and when the parser finds nothing in the text (so for
    the empty text), it returns the four defaults; when the parser finds
    at least one value it returns the parsed reading, unchanged.  The
    defaults give the recommendations of the empty form. *)
Theorem analyzeImageForSoilData_never_empty (extracted : completion string) :
  (1 <= keys_length (analyzeImageForSoilData extracted))%nat
  /\ (forall reason, analyzeImageForSoilData (Rejected reason) = defaultSoilData)
  /\ (forall text,
        keys_length (parseSoilDataFromText text) = 0%nat ->
        analyzeImageForSoilData (Fulfilled text) = defaultSoilData)
  /\ (forall text,
        keys_length (parseSoilDataFromText text) <> 0%nat ->
        analyzeImageForSoilData (Fulfilled text) = parseSoilDataFromText text)
  /\ analyzeImageForSoilData (Fulfilled "") = defaultSoilData
  /\ generateRecommendations defaultSoilData
     = generateRecommendations emptySoilData.
Proof.
  split; [ | split; [ | split; [ | split; [ | split ]]]].
  - apply analyzed_has_key.
  - reflexivity.
  - intros text K. unfold analyzeImageForSoilData. rewrite K. reflexivity.
  - intros text K. unfold analyzeImageForSoilData.
    destruct (Nat.eqb_spec (keys_length (parseSoilDataFromText text)) 0);
      [contradiction | reflexivity].
  - reflexivity.
  - apply generateRecommendations_ext; reflexivity.
Qed.

(** X14: the reading an image analysis returns is a valid one, and every
    suitability computed from it is at most 95. *)
Theorem analyzed_scores_at_most_95 (extracted : completion string) :
  validateSoilData (analyzeImageForSoilData extracted)
    = analyzeImageForSoilData extracted
  /\ Forall at_most_95 (crops_of (analyzeImageForSoilData extracted)).
Proof.
  destruct (analyze_fields extracted) as [Ha [Hb [Hc [Hd Hl]]]].
  split.
  - apply in_range_validated; assumption.
  - apply crops_at_most_95. apply within_0_14_pH_of. exact Ha.
Qed.

End ImageProperties.

(** ** Edits and uploads *)

Section FormProperties.

Context {runtime : Runtime}.

Lemma or_undefined_entered (x : number) : entered (or_undefined x).
Proof. unfold or_undefined. destruct (ToBoolean x) eqn:E; simpl; auto. Qed.

Lemma or_default_or_undefined (x d : number) :
  or_default (or_undefined x) d = or_default (Some x) d.
Proof.
  unfold or_undefined, or_default.
  destruct (ToBoolean x) eqn:E; [rewrite E | ]; reflexivity.
Qed.

(** X15: edits of the form: the last edit of a field wins, edits of
    different fields commute, and the farm size and the crops are not
    touched. *)
Theorem updateSoilData_algebra (f g : SoilField) (v w : string)
    (prev : FormData) :
  updateSoilData f w (updateSoilData f v prev) = updateSoilData f w prev
  /\ (f <> g ->
      updateSoilData f v (updateSoilData g w prev)
      = updateSoilData g w (updateSoilData f v prev))
  /\ farmSize (updateSoilData f v prev) = farmSize prev
  /\ crops (updateSoilData f v prev) = crops prev.
Proof.
  split; [ | split; [ | split ]]; try reflexivity.
  - destruct f; reflexivity.
  - intro H. destruct f, g; try reflexivity; contradiction H; reflexivity.
Qed.

(** X16: an edit never stores 0 or NaN in a numeric field: if no numeric
    field of the form holds a falsy number, none does after an edit. *)
Theorem updateSoilData_keeps_entered (f : SoilField) (v : string)
    (prev : FormData) :
  entered (pH (soilData prev)) -> entered (nitrogen (soilData prev)) ->
  entered (phosphorus (soilData prev)) -> entered (potassium (soilData prev)) ->
  entered (pH (soilData (updateSoilData f v prev)))
  /\ entered (nitrogen (soilData (updateSoilData f v prev)))
  /\ entered (phosphorus (soilData (updateSoilData f v prev)))
  /\ entered (potassium (soilData (updateSoilData f v prev))).
Proof.
  intros Ha Hb Hc Hd.
  destruct f; cbn [updateSoilData soilData with_pH with_nitrogen
    with_phosphorus with_potassium with_location pH nitrogen phosphorus
    potassium]; repeat split; trivial; apply or_undefined_entered.
Qed.

(** X17: an entry that parses to 0 or NaN is a missing field at submit: the
    recommendations are those of the form without that field. *)
Theorem cleared_field_is_missing_at_submit (v : string) (prev : FormData) :
  ToBoolean (parseFloat v) = false ->
  handleSubmit (updateSoilData field_pH v prev)
    = generateRecommendations (with_pH (soilData prev) None)
  /\ handleSubmit (updateSoilData field_nitrogen v prev)
    = generateRecommendations (with_nitrogen (soilData prev) None)
  /\ handleSubmit (updateSoilData field_phosphorus v prev)
    = generateRecommendations (with_phosphorus (soilData prev) None)
  /\ handleSubmit (updateSoilData field_potassium v prev)
    = generateRecommendations (with_potassium (soilData prev) None).
Proof.
  intro H. rewrite !handleSubmit_spec.
  cbn [updateSoilData soilData]. unfold or_undefined. rewrite H.
  repeat split.
Qed.

Lemma spread_analyzed_location (a : SoilData) (extracted : completion string) :
  location (spread a (analyzeImageForSoilData extracted)) = location a.
Proof.
  unfold spread. cbn [location].
  destruct (analyze_fields extracted) as [_ [_ [_ [_ Hl]]]]. rewrite Hl.
  reflexivity.
Qed.

(** X18: without a file, or with a file that is not valid (any file above
    10485760 bytes is not), the upload leaves the form data unchanged. *)
Theorem handleImageUpload_rejected (file : File)
    (extracted : completion string) (prev : FormData) :
  handleImageUpload None extracted prev = prev
  /\ (isValidImageFile file = false ->
      handleImageUpload (Some file) extracted prev = prev)
  /\ ((10485760 <? size file) = true -> isValidImageFile file = false).
Proof.
  split; [reflexivity | split].
  - intro H. unfold handleImageUpload. rewrite H. reflexivity.
  - intro H. unfold isValidImageFile.
    destruct (negb _); [reflexivity | ].
    change (10 * 1024 * 1024) with 10485760. rewrite H. reflexivity.
Qed.

(** X19: the upload of a valid file in whose text the parser finds at
    least one value: each numeric field of the form becomes the value the
    parser found, which lies within its range, and keeps its previous value
    when the parser found none for it; the location, the farm size and the
    crops are kept.  When the analysis fails instead, the four defaults
    replace the numeric fields. *)
Theorem handleImageUpload_merges (file : File) (text : string)
    (prev : FormData) :
  isValidImageFile file = true ->
  keys_length (parseSoilDataFromText text) <> 0%nat ->
  let found := parseSoilDataFromText text in
  let next := handleImageUpload (Some file) (Fulfilled text) prev in
  (merged (pH (soilData next)) (pH found) (pH (soilData prev))
   /\ within 0 14 (pH found))
  /\ (merged (nitrogen (soilData next)) (nitrogen found)
             (nitrogen (soilData prev))
      /\ within 0 10 (nitrogen found))
  /\ (merged (phosphorus (soilData next)) (phosphorus found)
             (phosphorus (soilData prev))
      /\ within 0 5 (phosphorus found))
  /\ (merged (potassium (soilData next)) (potassium found)
             (potassium (soilData prev))
      /\ within 0 8 (potassium found))
  /\ location (soilData next) = location (soilData prev)
  /\ farmSize next = farmSize prev
  /\ crops next = crops prev
  /\ (forall reason,
        soilData (handleImageUpload (Some file) (Rejected reason) prev)
        = with_location defaultSoilData (location (soilData prev))).
Proof.
  intros H K found next.
  assert (analyzeImageForSoilData (Fulfilled text) = found) as A.
  { unfold analyzeImageForSoilData.
    destruct (Nat.eqb_spec (keys_length (parseSoilDataFromText text)) 0);
      [contradiction | reflexivity]. }
  assert (soilData next = spread (soilData prev) found) as N.
  { unfold next, handleImageUpload. rewrite H. cbn [negb soilData].
    rewrite A. reflexivity. }
  destruct (parse_fields text) as [Ra [Rb [Rc [Rd Rl]]]].
  fold found in Ra, Rb, Rc, Rd, Rl.
  rewrite N.
  split; [ | split; [ | split; [ | split; [ | split; [ | split; [ | split]]]]]].
  - split; [ | exact Ra].
    unfold merged, spread. cbn [pH]. destruct (pH found); reflexivity.
  - split; [ | exact Rb].
    unfold merged, spread. cbn [nitrogen]. destruct (nitrogen found); reflexivity.
  - split; [ | exact Rc].
    unfold merged, spread. cbn [phosphorus].
    destruct (phosphorus found); reflexivity.
  - split; [ | exact Rd].
    unfold merged, spread. cbn [potassium].
    destruct (potassium found); reflexivity.
  - unfold spread. cbn [location]. rewrite Rl. reflexivity.
  - unfold next, handleImageUpload. rewrite H. reflexivity.
  - unfold next, handleImageUpload. rewrite H. reflexivity.
  - intro reason. unfold handleImageUpload. rewrite H. reflexivity.
Qed.

(** X20: a valid image in which nothing is found overwrites the four
    numeric entries with the defaults, so the recommendations at submit are
    those of the empty form, whatever had been entered. *)
Theorem unreadable_image_overwrites_entries (file : File) (text : string)
    (prev : FormData) :
  isValidImageFile file = true ->
  keys_length (parseSoilDataFromText text) = 0%nat ->
  soilData (handleImageUpload (Some file) (Fulfilled text) prev)
    = with_location defaultSoilData (location (soilData prev))
  /\ handleSubmit (handleImageUpload (Some file) (Fulfilled text) prev)
    = generateRecommendations emptySoilData.
Proof.
  intros H K.
  assert (soilData (handleImageUpload (Some file) (Fulfilled text) prev)
          = with_location defaultSoilData (location (soilData prev))) as E.
  { unfold handleImageUpload, analyzeImageForSoilData. rewrite H, K.
    reflexivity. }
  split; [exact E | ].
  rewrite handleSubmit_spec, E.
  apply generateRecommendations_ext; reflexivity.
Qed.

End FormProperties.

Lemma updateSoilData_algebra_witness :
  field_pH <> field_nitrogen
  /\ @updateSoilData blind_runtime field_pH "6.1"
       (@updateSoilData blind_runtime field_nitrogen "0.7" (form_of emptySoilData))
     = @updateSoilData blind_runtime field_nitrogen "0.7"
         (@updateSoilData blind_runtime field_pH "6.1" (form_of emptySoilData)).
Proof.
  split; [discriminate | ].
  apply (proj1 (proj2 (@updateSoilData_algebra blind_runtime field_pH
                         field_nitrogen "6.1" "0.7" (form_of emptySoilData)))).
  discriminate.
Defined.

Lemma updateSoilData_keeps_entered_witness :
  entered (pH (soilData (@updateSoilData sevens_runtime field_pH "7"
                           (form_of emptySoilData))))
  /\ entered (nitrogen (soilData (@updateSoilData sevens_runtime field_pH "7"
                                    (form_of emptySoilData))))
  /\ entered (phosphorus (soilData (@updateSoilData sevens_runtime field_pH "7"
                                      (form_of emptySoilData))))
  /\ entered (potassium (soilData (@updateSoilData sevens_runtime field_pH "7"
                                     (form_of emptySoilData)))).
Proof.
  apply (@updateSoilData_keeps_entered sevens_runtime field_pH "7"
           (form_of emptySoilData)); exact I.
Defined.

Lemma cleared_field_is_missing_at_submit_witness :
  ToBoolean (@parseFloat blind_runtime "") = false
  /\ handleSubmit (@updateSoilData blind_runtime field_pH "" (form_of reading_C8))
     = generateRecommendations (with_pH reading_C8 None).
Proof.
  split; [reflexivity | ].
  apply (proj1 (@cleared_field_is_missing_at_submit blind_runtime ""
                  (form_of reading_C8) eq_refl)).
Defined.

Lemma handleImageUpload_rejected_witness :
  (10485760 <? size huge_file) = true
  /\ @isValidImageFile blind_runtime huge_file = false
  /\ @handleImageUpload blind_runtime (Some huge_file) (Fulfilled "ph 6.1")
       (form_of reading_C8) = form_of reading_C8.
Proof.
  destruct (@handleImageUpload_rejected blind_runtime huge_file
              (Fulfilled "ph 6.1") (form_of reading_C8)) as [_ [H1 H2]].
  split; [reflexivity | split; [apply H2; reflexivity | ]].
  apply H1. apply H2. reflexivity.
Defined.

(** With a runtime whose every match reads 7, the pH becomes 7 and the
    phosphorus, for which 7 is out of range, keeps its previous 0.05. *)
Lemma handleImageUpload_merges_witness :
  @isValidImageFile sevens_runtime png_file = true
  /\ keys_length (@parseSoilDataFromText sevens_runtime "ph 7") <> 0%nat
  /\ pH (soilData (@handleImageUpload sevens_runtime (Some png_file)
                     (Fulfilled "ph 7") (form_of reading_poor))) = Some 7
  /\ phosphorus (soilData (@handleImageUpload sevens_runtime (Some png_file)
                     (Fulfilled "ph 7") (form_of reading_poor)))
     = phosphorus reading_poor.
Proof.
  assert (keys_length (@parseSoilDataFromText sevens_runtime "ph 7") <> 0%nat)
    as K by (vm_compute; discriminate).
  pose proof (@handleImageUpload_merges sevens_runtime png_file
                "ph 7" (form_of reading_poor) eq_refl K) as H.
  cbv zeta in H.
  split; [reflexivity | split; [exact K | split]].
  - exact (proj1 (proj1 H)).
  - exact (proj1 (proj1 (proj2 (proj2 H)))).
Defined.

Lemma unreadable_image_overwrites_entries_witness :
  @isValidImageFile blind_runtime png_file = true
  /\ keys_length (@parseSoilDataFromText blind_runtime "blurred") = 0%nat
  /\ handleSubmit (@handleImageUpload blind_runtime (Some png_file)
                     (Fulfilled "blurred") (form_of reading_C8))
     = generateRecommendations emptySoilData.
Proof.
  split; [reflexivity | split; [reflexivity | ]].
  apply (proj2 (@unreadable_image_overwrites_entries blind_runtime png_file
                  "blurred" (form_of reading_C8) eq_refl eq_refl)).
Defined.

(** With a runtime whose every match reads 7 the parsed reading is
    returned; with one that finds nothing, the defaults. *)
Lemma analyzeImageForSoilData_never_empty_witness :
  (keys_length (@parseSoilDataFromText sevens_runtime "ph 7") <> 0%nat
   /\ @analyzeImageForSoilData sevens_runtime (Fulfilled "ph 7")
      = @parseSoilDataFromText sevens_runtime "ph 7"
   /\ pH (@analyzeImageForSoilData sevens_runtime (Fulfilled "ph 7")) = Some 7)
  /\ (keys_length (@parseSoilDataFromText blind_runtime "blurred") = 0%nat
      /\ @analyzeImageForSoilData blind_runtime (Fulfilled "blurred")
         = defaultSoilData).
Proof.
  assert (keys_length (@parseSoilDataFromText sevens_runtime "ph 7") <> 0%nat)
    as K by (vm_compute; discriminate).
  pose proof (@analyzeImageForSoilData_never_empty sevens_runtime
                (Fulfilled "ph 7")) as [_ [_ [_ [P _]]]].
  pose proof (@analyzeImageForSoilData_never_empty blind_runtime
                (Fulfilled "blurred")) as [_ [_ [D _]]].
  split.
  - split; [exact K | split; [exact (P "ph 7" K) | ]].
    rewrite (P "ph 7" K). reflexivity.
  - split; [reflexivity | exact (D "blurred" eq_refl)].
Defined.
